(** * A model of scripts/build_attrs.py

    Shallow embedding of the per-state ACS attribute builder.

    Modelling conventions:
    - Python values that flow through the script (JSON payloads, the
      configuration, coerced cells) are the inductive [json]; a Python dict
      is an association list kept in insertion order, with its keys unique.
    - Python [str] is [String.string]; a character is read as the Unicode
      code point of its byte (0..255).
    - Python [float] is an IEEE-754 binary64, modelled by [spec_float]
      (prec 53, emax 1024), and every conversion from decimal text is
      correctly rounded, as CPython's [float()] is.
    - Exceptions are the values of [exn]; fallible code returns [res].
    - Side effects of [main] (requests, sleeps, file writes) are events of a
      writer monad [M]. *)

From Stdlib Require Import ZArith List String Ascii Bool Lia Permutation Sorting.Sorted.
From Stdlib Require Import Floats.SpecFloat.
Import ListNotations.

Open Scope Z_scope.

(** ** Exceptions and the result type *)

Inductive exn :=
  | KeyError
  | TypeError
  | ValueError
  | OverflowError
  | IndexError
  | AttributeError
  | ZeroDivisionError
  | FileNotFoundError (msg : string)
  | RuntimeError (msg : string)
  (* the exceptions [fetch_json] catches, with their [str()] *)
  | HTTPError (msg : string)
  | URLError (msg : string)
  | TimeoutError (msg : string)
  | JSONDecodeError (msg : string)
  (* any other exception raised while reading a response *)
  | OtherError (msg : string)
  (* a Python behaviour the model does not cover: non-string dict keys *)
  | Unmodelled.

Inductive res (A : Type) :=
  | Ok (a : A)
  | Err (e : exn).
Arguments Ok {A} a.
Arguments Err {A} e.

Definition rbind {A B} (m : res A) (f : A -> res B) : res B :=
  match m with
  | Ok a => f a
  | Err e => Err e
  end.

Declare Scope res_scope.
Notation "x <- m ;; k" := (rbind m (fun x => k))
  (at level 61, m at next level, right associativity) : res_scope.
Delimit Scope res_scope with res.
Open Scope res_scope.

(** ** Characters and strings *)

Definition code (c : ascii) : Z := Z.of_N (N_of_ascii c).

(** [str.isspace] on code points 0..255. *)
Definition is_space (c : ascii) : bool :=
  let n := code c in
  ((9 <=? n) && (n <=? 13)) || ((28 <=? n) && (n <=? 32))
  || (n =? 133) || (n =? 160).

Definition is_digit (c : ascii) : bool :=
  let n := code c in (48 <=? n) && (n <=? 57).

Definition digit_val (c : ascii) : Z := code c - 48.

Fixpoint strip_left (s : string) : string :=
  match s with
  | EmptyString => EmptyString
  | String c s' => if is_space c then strip_left s' else s
  end.

Definition rev_string (s : string) : string :=
  string_of_list_ascii (rev (list_ascii_of_string s)).

(** [str.strip()] *)
Definition strip (s : string) : string :=
  rev_string (strip_left (rev_string (strip_left s))).

Definition ascii_upper (c : ascii) : ascii :=
  let n := code c in
  if (97 <=? n) && (n <=? 122) then ascii_of_N (Z.to_N (n - 32)) else c.

Definition ascii_lower (c : ascii) : ascii :=
  let n := code c in
  if (65 <=? n) && (n <=? 90) then ascii_of_N (Z.to_N (n + 32)) else c.

Fixpoint smap (f : ascii -> ascii) (s : string) : string :=
  match s with
  | EmptyString => EmptyString
  | String c s' => String (f c) (smap f s')
  end.

(** [str.upper()] and [str.lower()]: only the ASCII letters change case in
    the model; no other code point below 256 upper-cases to an ASCII
    letter, so the comparisons with ASCII literals below are exact. *)
Definition upper (s : string) : string := smap ascii_upper s.
Definition lower (s : string) : string := smap ascii_lower s.

Fixpoint zeros (n : nat) : string :=
  match n with
  | O => EmptyString
  | S n' => String "0" (zeros n')
  end.

(** [str.zfill(width)]: pad with zeros on the left, keeping a leading sign
    in front. *)
Definition zfill (s : string) (width : nat) : string :=
  let len := String.length s in
  if (width <=? len)%nat then s
  else
    let fill := (width - len)%nat in
    match s with
    | String c rest =>
        if (c =? "+")%char || (c =? "-")%char
        then String c (zeros fill ++ rest)%string
        else (zeros fill ++ s)%string
    | EmptyString => zeros fill
    end.

(** Decimal text of an integer ([int.__repr__]). *)
Fixpoint digits_of_pos_aux (fuel : nat) (n : Z) (acc : string) : string :=
  match fuel with
  | O => acc
  | S f =>
      let d := ascii_of_N (Z.to_N (48 + n mod 10)) in
      if n <? 10 then String d acc
      else digits_of_pos_aux f (n / 10) (String d acc)
  end.

Definition z_to_string (z : Z) : string :=
  match z with
  | Z0 => "0"
  | Zpos p => digits_of_pos_aux (Pos.size_nat p) (Zpos p) EmptyString
  | Zneg p => String "-" (digits_of_pos_aux (Pos.size_nat p) (Zpos p) EmptyString)
  end.

(** ** Python floats (IEEE-754 binary64) *)

Definition prec : Z := 53.
Definition emax : Z := 1024.

Definition fzero : spec_float := S754_zero false.

(** The double nearest to [(-1)^neg * m * 10^e] (ties to even), as
    CPython's correctly rounded [_Py_dg_strtod] computes it. *)
Definition dec_to_float (neg : bool) (m : Z) (e : Z) : spec_float :=
  if m =? 0 then S754_zero neg
  else if 0 <=? e then
    binary_normalize prec emax ((if neg then - m else m) * 10 ^ e) 0 neg
  else
    let '(q, e', l) := SFdiv_core_binary prec emax m 0 (10 ^ (- e)) 0 in
    binary_round_aux prec emax neg q e' l.

(** Value of a list of decimal digits. *)
Definition digits_value (ds : list ascii) : Z :=
  fold_left (fun acc c => acc * 10 + digit_val c) ds 0.

(** [digitpart ::= digit (["_"] digit)*], the digits after the first one. *)
Fixpoint digitpart_rest (l : list ascii) : list ascii * list ascii :=
  match l with
  | c :: l' =>
      if is_digit c then let '(ds, r) := digitpart_rest l' in (c :: ds, r)
      else if (c =? "_")%char then
        match l' with
        | d :: l'' =>
            if is_digit d then let '(ds, r) := digitpart_rest l'' in (d :: ds, r)
            else ([], l)
        | [] => ([], l)
        end
      else ([], l)
  | [] => ([], [])
  end.

(** An optional [digitpart]: the digits read (none when absent) and the
    rest of the input. *)
Definition digitpart (l : list ascii) : list ascii * list ascii :=
  match l with
  | c :: l' => if is_digit c then let '(ds, r) := digitpart_rest l' in (c :: ds, r)
               else ([], l)
  | [] => ([], [])
  end.

Definition read_sign (l : list ascii) : bool * list ascii :=
  match l with
  | c :: l' =>
      if (c =? "-")%char then (true, l')
      else if (c =? "+")%char then (false, l')
      else (false, l)
  | [] => (false, l)
  end.

(** [exponent ::= ("e" | "E") [sign] digitpart], or nothing at the end. *)
Definition read_exponent (l : list ascii) : option Z :=
  match l with
  | [] => Some 0
  | c :: l' =>
      if (c =? "e")%char || (c =? "E")%char then
        let '(neg, l2) := read_sign l' in
        match digitpart l2 with
        | ((_ :: _) as ds, []) =>
            Some (if neg then - digits_value ds else digits_value ds)
        | _ => None
        end
      else None
  end.

(** [floatnumber ::= ([digitpart] "." digitpart | digitpart ["."]) [exponent]]
    read as a decimal mantissa and a power of ten. *)
Definition read_floatnumber (l : list ascii) : option (Z * Z) :=
  let '(ip, r1) := digitpart l in
  match r1 with
  | c :: r2 =>
      if (c =? ".")%char then
        let '(fp, r3) := digitpart r2 in
        match ip, fp with
        | [], [] => None
        | _, _ =>
            match read_exponent r3 with
            | Some ex => Some (digits_value (ip ++ fp),
                               ex - Z.of_nat (List.length fp))
            | None => None
            end
        end
      else
        match ip with
        | [] => None
        | _ => match read_exponent r1 with
               | Some ex => Some (digits_value ip, ex)
               | None => None
               end
        end
  | [] =>
      match ip with
      | [] => None
      | _ => Some (digits_value ip, 0)
      end
  end.

(** [float(s)] for a [str] argument. *)
Definition py_float_of_string (s : string) : res spec_float :=
  let t := strip s in
  let '(neg, l) := read_sign (list_ascii_of_string t) in
  let w := lower (string_of_list_ascii l) in
  if String.eqb w "inf" || String.eqb w "infinity" then Ok (S754_infinity neg)
  else if String.eqb w "nan" then Ok S754_nan
  else
    match read_floatnumber l with
    | Some (m, e) => Ok (dec_to_float neg m e)
    | None => Err ValueError
    end.

(** The default of [sys.get_int_max_str_digits()]: [int(s)] refuses a
    base-10 string of more digits (underscores and sign not counted). *)
Definition int_max_str_digits : nat := 4300.

(** [int(s)] for a [str] argument (base 10). *)
Definition py_int_of_string (s : string) : res Z :=
  let t := strip s in
  let '(neg, l) := read_sign (list_ascii_of_string t) in
  match digitpart l with
  | ((_ :: _) as ds, []) =>
      if Nat.ltb int_max_str_digits (List.length ds) then Err ValueError
      else Ok (if neg then - digits_value ds else digits_value ds)
  | _ => Err ValueError
  end.

(** [int(x)] for a float [x]: truncation towards zero. *)
Definition py_int_of_float (f : spec_float) : res Z :=
  match f with
  | S754_zero _ => Ok 0
  | S754_infinity _ => Err OverflowError
  | S754_nan => Err ValueError
  | S754_finite s m e =>
      let v := if 0 <=? e then Zpos m * 2 ^ e else Z.shiftr (Zpos m) (- e) in
      Ok (if s then - v else v)
  end.

(** [float(n)] for an int [n]: rounded to nearest even, [OverflowError]
    beyond the largest double. *)
Definition py_float_of_int (z : Z) : res spec_float :=
  match binary_normalize prec emax z 0 false with
  | S754_infinity _ => Err OverflowError
  | f => Ok f
  end.

(** [x / y] on floats. *)
Definition py_fdiv (x y : spec_float) : res spec_float :=
  match y with
  | S754_zero _ => Err ZeroDivisionError
  | _ => Ok (SFdiv prec emax x y)
  end.

(** [x > y] on floats. *)
Definition py_fgt (x y : spec_float) : bool := SFltb y x.

(** Integer division rounding half to even. *)
Definition div_half_even (n d : Z) : Z :=
  let q := n / d in
  let r := n mod d in
  match Z.compare (2 * r) d with
  | Lt => q
  | Gt => q + 1
  | Eq => if Z.even q then q else q + 1
  end.

(** [round(x, ndigits)] for a float [x] (CPython's [float.__round__]:
    correctly rounded to [ndigits] decimals, ties to even). *)
Definition py_round (x : spec_float) (nd : Z) : res spec_float :=
  match x with
  | S754_finite s m e =>
      if 323 <? nd then Ok x
      else if nd <? -308 then Ok (S754_zero s)
      else
        let num := Zpos m * 2 ^ Z.max e 0 * 10 ^ Z.max nd 0 in
        let den := 2 ^ Z.max (- e) 0 * 10 ^ Z.max (- nd) 0 in
        match dec_to_float s (div_half_even num den) (- nd) with
        | S754_infinity _ => Err OverflowError
        | r => Ok r
        end
  | _ => Ok x
  end.

(** ** Python values *)

Set Warnings "-register-all".

(** The values the script handles: what [json.loads] produces, plus the
    dicts and lists the script builds.  [JObj] is a dict with string keys,
    in insertion order. *)
Inductive json :=
  | JNull
  | JBool (b : bool)
  | JInt (z : Z)
  | JFloat (f : spec_float)
  | JStr (s : string)
  | JArr (l : list json)
  | JObj (kv : list (string * json)).

(** [d.get(k)] on a dict with string keys. *)
Fixpoint dict_lookup {A} (k : string) (d : list (string * A)) : option A :=
  match d with
  | [] => None
  | (k', v) :: d' => if String.eqb k k' then Some v else dict_lookup k d'
  end.

(** [d[k] = v]: an existing key keeps its position, a new key goes last. *)
Fixpoint dict_set {A} (k : string) (v : A) (d : list (string * A))
  : list (string * A) :=
  match d with
  | [] => [(k, v)]
  | (k', v') :: d' =>
      if String.eqb k k' then (k', v) :: d' else (k', v') :: dict_set k v d'
  end.

(** Truth value of a Python object ([bool(x)]). *)
Definition py_truthy (v : json) : bool :=
  match v with
  | JNull => false
  | JBool b => b
  | JInt z => negb (z =? 0)
  | JFloat (S754_zero _) => false
  | JFloat _ => true
  | JStr s => negb (String.eqb s EmptyString)
  | JArr l => negb (Nat.eqb (List.length l) 0)
  | JObj kv => negb (Nat.eqb (List.length kv) 0)
  end.

(** [o.get(k, default)] *)
Definition py_get (o : json) (k : string) (dflt : json) : res json :=
  match o with
  | JObj kv => Ok (match dict_lookup k kv with Some v => v | None => dflt end)
  | _ => Err AttributeError
  end.

(** [o[k]] with a string key *)
Definition py_getitem (o : json) (k : string) : res json :=
  match o with
  | JObj kv => match dict_lookup k kv with Some v => Ok v | None => Err KeyError end
  | _ => Err TypeError
  end.

Definition chars (s : string) : list json :=
  map (fun c => JStr (String c EmptyString)) (list_ascii_of_string s).

(** [o[i]] with an int index *)
Definition py_index (o : json) (i : Z) : res json :=
  let pick {A} (l : list A) : res A :=
    let n := Z.of_nat (List.length l) in
    let j := if i <? 0 then i + n else i in
    if (0 <=? j) && (j <? n) then
      match nth_error l (Z.to_nat j) with Some x => Ok x | None => Err IndexError end
    else Err IndexError in
  match o with
  | JArr l => pick l
  | JStr s => pick (chars s)
  | JObj _ => Err KeyError
  | _ => Err TypeError
  end.

(** [o[1:]] *)
Definition py_slice1 (o : json) : res json :=
  match o with
  | JArr l => Ok (JArr (tl l))
  | JStr s => Ok (JStr (string_of_list_ascii (tl (list_ascii_of_string s))))
  | _ => Err TypeError
  end.

(** [for x in o] *)
Definition py_iter (o : json) : res (list json) :=
  match o with
  | JArr l => Ok l
  | JStr s => Ok (chars s)
  | JObj kv => Ok (map (fun p => JStr (fst p)) kv)
  | _ => Err TypeError
  end.

(** The result of [x is None]. *)
Definition is_none (v : json) : bool :=
  match v with JNull => true | _ => false end.

(** ** Text rendering: [str()], [repr()] and [json.dump] *)

Definition chr (n : Z) : ascii := ascii_of_N (Z.to_N n).
Definition dq : string := String (chr 34) EmptyString.
Definition sq : string := String (chr 39) EmptyString.
Definition bs : string := String (chr 92) EmptyString.

Definition hex_digit (n : Z) : ascii :=
  if n <? 10 then chr (48 + n) else chr (87 + n).

Definition hex2 (n : Z) : string :=
  String (hex_digit (n / 16)) (String (hex_digit (n mod 16)) EmptyString).

Fixpoint join (sep : string) (l : list string) : string :=
  match l with
  | [] => EmptyString
  | [x] => x
  | x :: l' => (x ++ sep ++ join sep l')%string
  end.

Fixpoint has_char (c : ascii) (s : string) : bool :=
  match s with
  | EmptyString => false
  | String c' s' => (c' =? c)%char || has_char c s'
  end.

(** [str.isprintable] on code points 0..255. *)
Definition is_printable (c : ascii) : bool :=
  let n := code c in
  ((32 <=? n) && (n <=? 126)) || ((161 <=? n) && (n <=? 255) && negb (n =? 173)).

(** [repr(s)] for a [str]. *)
Definition str_repr (s : string) : string :=
  let q := if has_char (chr 39) s && negb (has_char (chr 34) s) then chr 34 else chr 39 in
  let esc (c : ascii) : string :=
    let n := code c in
    if (c =? q)%char || (n =? 92) then String (chr 92) (String c EmptyString)
    else if n =? 9 then (bs ++ "t")%string
    else if n =? 10 then (bs ++ "n")%string
    else if n =? 13 then (bs ++ "r")%string
    else if is_printable c then String c EmptyString
    else (bs ++ "x" ++ hex2 n)%string in
  String q (fold_right (fun c acc => (esc c ++ acc)%string) (String q EmptyString)
                       (list_ascii_of_string s)).

(** Sorting of dict items by key ([sorted(d.items())] on string keys). *)
Fixpoint insert_item {A} (p : string * A) (l : list (string * A)) : list (string * A) :=
  match l with
  | [] => [p]
  | q :: l' =>
      match String.compare (fst p) (fst q) with
      | Lt => p :: q :: l'
      | _ => q :: insert_item p l'
      end
  end.

Definition sort_items {A} (l : list (string * A)) : list (string * A) :=
  fold_right insert_item [] l.

(** [json.dumps]'s quoting of a [str] with [ensure_ascii=False]. *)
Definition json_escape_char (c : ascii) : string :=
  let n := code c in
  if n =? 34 then (bs ++ dq)%string
  else if n =? 92 then (bs ++ bs)%string
  else if n =? 8 then (bs ++ "b")%string
  else if n =? 12 then (bs ++ "f")%string
  else if n =? 10 then (bs ++ "n")%string
  else if n =? 13 then (bs ++ "r")%string
  else if n =? 9 then (bs ++ "t")%string
  else if n <? 32 then (bs ++ "u00" ++ hex2 n)%string
  else String c EmptyString.

Definition json_str (s : string) : string :=
  (dq ++ fold_right (fun c acc => (json_escape_char c ++ acc)%string) dq
                    (list_ascii_of_string s))%string.

(** ** Builtins left abstract

    Library behaviour that no claim depends on is a parameter of the
    model: [repr] of a finite float, [str.format(state=...)] of the
    filename template, and [pathlib]'s [Path(s).as_posix()] and
    [(Path(a) / b).as_posix()]. *)
Record runtime := {
  float_repr : spec_float -> string;
  format_state : string -> string -> res string;
  path_norm : string -> string;
  path_join : string -> string -> string
}.

Section Script.
Variable rt : runtime.

Definition float_str (f : spec_float) : string :=
  match f with
  | S754_nan => "nan"
  | S754_infinity false => "inf"
  | S754_infinity true => "-inf"
  | _ => float_repr rt f
  end.

(** [repr(v)] *)
Fixpoint py_repr (v : json) : string :=
  match v with
  | JNull => "None"
  | JBool true => "True"
  | JBool false => "False"
  | JInt z => z_to_string z
  | JFloat f => float_str f
  | JStr s => str_repr s
  | JArr l => ("[" ++ join ", " (map py_repr l) ++ "]")%string
  | JObj kv =>
      ("{" ++ join ", " (map (fun p => str_repr (fst p) ++ ": " ++ py_repr (snd p)) kv)
       ++ "}")%string
  end.

(** [str(v)] *)
Definition py_str (v : json) : string :=
  match v with
  | JStr s => s
  | _ => py_repr v
  end.

(** [json.dump]'s rendering of a float ([allow_nan=True]). *)
Definition json_float (f : spec_float) : string :=
  match f with
  | S754_nan => "NaN"
  | S754_infinity false => "Infinity"
  | S754_infinity true => "-Infinity"
  | _ => float_repr rt f
  end.

(** [json.dump(obj, f, ensure_ascii=False, separators=(",", ":"),
    sort_keys=True)]: the text written. *)
Fixpoint dumps (v : json) : string :=
  match v with
  | JNull => "null"
  | JBool true => "true"
  | JBool false => "false"
  | JInt z => z_to_string z
  | JFloat f => json_float f
  | JStr s => json_str s
  | JArr l => ("[" ++ join "," (map dumps l) ++ "]")%string
  | JObj kv =>
      ("{" ++ join ","
         (map (fun p => json_str (fst p) ++ ":" ++ snd p)%string
              (sort_items (map (fun p => (fst p, dumps (snd p))) kv)))
       ++ "}")%string
  end.

(** [float(v)] *)
Definition py_float_of_json (v : json) : res spec_float :=
  match v with
  | JInt z => py_float_of_int z
  | JBool b => Ok (dec_to_float false (if b then 1 else 0) 0)
  | JFloat f => Ok f
  | JStr s => py_float_of_string s
  | _ => Err TypeError
  end.

(** [int(v)] *)
Definition py_int_of_json (v : json) : res Z :=
  match v with
  | JInt z => Ok z
  | JBool b => Ok (if b then 1 else 0)
  | JFloat f => py_int_of_float f
  | JStr s => py_int_of_string s
  | _ => Err TypeError
  end.

(** A [str] argument where the callee needs one. *)
Definition as_str (e : exn) (v : json) : res string :=
  match v with
  | JStr s => Ok s
  | _ => Err e
  end.

(** [v == s] for a [str] literal [s]. *)
Definition is_str_lit (v : json) (s : string) : bool :=
  match v with
  | JStr s' => String.eqb s' s
  | _ => false
  end.

(** ** [load_aland_by_geoid] *)

(** The loop body, for one feature [feat], updating the index [out]. *)
Definition load_feature (out : list (string * Z)) (feat : json)
  : res (list (string * Z)) :=
  props0 <- py_get feat "properties" JNull ;;
  let props := if py_truthy props0 then props0 else JObj [] in
  g <- py_get props "GEOID" JNull ;;
  let geoid := strip (py_str (if py_truthy g then g else JStr EmptyString)) in
  aland <- py_get props "ALAND" JNull ;;
  if negb (Nat.eqb (String.length geoid) 7) || is_none aland then Ok out
  else
    match py_int_of_json aland with
    | Ok z => Ok (dict_set geoid z out)
    | Err ValueError | Err TypeError =>
        match (f <- py_float_of_string (py_str aland) ;; py_int_of_float f) with
        | Ok z => Ok (dict_set geoid z out)
        | Err _ => Ok out
        end
    | Err e => Err e
    end.

Fixpoint load_features (out : list (string * Z)) (feats : list json)
  : res (list (string * Z)) :=
  match feats with
  | [] => Ok out
  | feat :: feats' => out' <- load_feature out feat ;; load_features out' feats'
  end.

(** [files p] is the parsed content of the file at [p], [None] when it does
    not exist. *)
Definition load_aland_by_geoid (files : string -> option (res json))
  (areaindex_geojson_path : string) : res (list (string * Z)) :=
  match files areaindex_geojson_path with
  | None => Err (FileNotFoundError
                   ("areaindex_geojson not found: " ++ areaindex_geojson_path)%string)
  | Some gj0 =>
      gj <- gj0 ;;
      feats <- py_get gj "features" (JArr []) ;;
      l <- py_iter feats ;;
      load_features [] l
  end.

(** ** [pad_geoid] and [parse_value] *)

Definition pad_geoid (statefp placefp : string) : string :=
  (zfill statefp 2 ++ zfill placefp 5)%string.

Definition parse_value (raw : json) (vtype : json) : res json :=
  if is_none raw then Ok JNull
  else
    let s := strip (py_str raw) in
    if String.eqb s EmptyString || String.eqb (upper s) "NULL"
       || String.eqb (upper s) "N/A" then Ok JNull
    else
      let r :=
        if is_str_lit vtype "int" then
          f <- py_float_of_string s ;; z <- py_int_of_float f ;; Ok (JInt z)
        else if is_str_lit vtype "float" then
          f <- py_float_of_string s ;; Ok (JFloat f)
        else Ok (JStr s) in
      match r with
      | Err ValueError => Ok JNull
      | _ => r
      end.

(** ** Population density *)

Definition M2_PER_SQMI : spec_float := dec_to_float false 2589988110336 (-6).

(** Lines 251-258 of [main]: the value stored under the density key, from
    [pop = rec.get("pop_total")] and [aland_m2 = aland_by_geoid.get(geoid)]
    ([None] read as [JNull] and as [None] respectively). *)
Definition density_value (pop : json) (aland_m2 : option Z) (density_round : json)
  : res json :=
  match aland_m2 with
  | Some a =>
      if negb (is_none pop) && negb (a =? 0) && (0 <? a) then
        af <- py_float_of_int a ;;
        land_sqmi <- py_fdiv af M2_PER_SQMI ;;
        if py_fgt land_sqmi fzero then
          p <- py_float_of_json pop ;;
          q <- py_fdiv p land_sqmi ;;
          nd <- py_int_of_json density_round ;;
          d <- py_round q nd ;;
          Ok (JFloat d)
        else Ok JNull
      else Ok JNull
  | None => Ok JNull
  end.

(** ** The row loop of [main] (lines 236-261) *)

(** The per-run settings read from the configuration. *)
Record settings := {
  st_fields : list json;            (* cfg["fields"], iterated *)
  st_compute_density : bool;        (* bool(areaindex_geojson) *)
  st_aland : list (string * Z);     (* aland_by_geoid *)
  st_density_key : json;            (* density_key *)
  st_density_round : json           (* density_round *)
}.

(** [idx[name]] *)
Definition idx_get (idx : list (string * Z)) (name : json) : res Z :=
  match name with
  | JStr n => match dict_lookup n idx with Some i => Ok i | None => Err KeyError end
  | JArr _ | JObj _ => Err TypeError
  | _ => Err KeyError
  end.

(** [rec[f["key"]] = parse_value(r[idx[f["var"]]], f.get("type", "float"))] *)
Definition set_field (idx : list (string * Z)) (r : json)
  (rec : list (string * json)) (f : json) : res (list (string * json)) :=
  var <- py_getitem f "var" ;;
  i <- idx_get idx var ;;
  raw <- py_index r i ;;
  vtype <- py_get f "type" (JStr "float") ;;
  v <- parse_value raw vtype ;;
  key <- py_getitem f "key" ;;
  k <- as_str Unmodelled key ;;
  Ok (dict_set k v rec).

Fixpoint build_rec (idx : list (string * Z)) (r : json)
  (rec : list (string * json)) (fields : list json) : res (list (string * json)) :=
  match fields with
  | [] => Ok rec
  | f :: fs => rec' <- set_field idx r rec f ;; build_rec idx r rec' fs
  end.

(** The accumulators of the row loop: the per-state document [out], the
    [written] counter and [totals["missing_geoid"]]. *)
Record row_acc := {
  ra_out : list (string * json);
  ra_written : Z;
  ra_missing : Z
}.

(** One iteration of [for r in data_rows]. *)
Definition process_row (s : settings) (idx : list (string * Z)) (acc : row_acc)
  (r : json) : res row_acc :=
  i_st <- idx_get idx (JStr "state") ;;
  st <- py_index r i_st ;;
  i_pl <- idx_get idx (JStr "place") ;;
  pl <- py_index r i_pl ;;
  st_s <- as_str AttributeError st ;;
  pl_s <- as_str AttributeError pl ;;
  let geoid := pad_geoid st_s pl_s in
  if negb (Nat.eqb (String.length geoid) 7) then
    Ok {| ra_out := ra_out acc; ra_written := ra_written acc;
          ra_missing := ra_missing acc + 1 |}
  else
    rec <- build_rec idx r [] (st_fields s) ;;
    rec' <- (if st_compute_density s then
               let pop := match dict_lookup "pop_total" rec with
                          | Some v => v | None => JNull end in
               dens <- density_value pop (dict_lookup geoid (st_aland s))
                                     (st_density_round s) ;;
               dk <- as_str Unmodelled (st_density_key s) ;;
               Ok (dict_set dk dens rec)
             else Ok rec) ;;
    Ok {| ra_out := dict_set geoid (JObj rec') (ra_out acc);
          ra_written := ra_written acc + 1;
          ra_missing := ra_missing acc |}.

Fixpoint process_rows (s : settings) (idx : list (string * Z)) (acc : row_acc)
  (rows : list json) : res row_acc :=
  match rows with
  | [] => Ok acc
  | r :: rows' => acc' <- process_row s idx acc r ;; process_rows s idx acc' rows'
  end.

(** [idx = {name: i for i, name in enumerate(header)}] *)
Fixpoint build_idx_from (i : Z) (names : list json) (idx : list (string * Z))
  : res (list (string * Z)) :=
  match names with
  | [] => Ok idx
  | JStr n :: names' => build_idx_from (i + 1) names' (dict_set n i idx)
  | _ :: _ => Err Unmodelled
  end.

Definition build_idx (header : json) : res (list (string * Z)) :=
  names <- py_iter header ;; build_idx_from 0 names [].

(** ** Effects: requests, sleeps and file writes *)

Inductive event :=
  | EvRequest (url : string)
  | EvSleep (secs : spec_float)
  | EvWrite (path : string) (text : string).

(** A computation that records its events and returns or raises. *)
Definition M (A : Type) : Type := (list event * res A)%type.

Definition mret {A} (a : A) : M A := ([], Ok a).

Definition mbind {A B} (m : M A) (f : A -> M B) : M B :=
  match m with
  | (t, Ok a) => let (t', r) := f a in (t ++ t', r)
  | (t, Err e) => (t, Err e)
  end.

Definition lift {A} (r : res A) : M A := ([], r).

Definition emit (e : event) : M unit := ([e], Ok tt).

Declare Scope M_scope.
Notation "x <~ m ;; k" := (mbind m (fun x => k))
  (at level 61, m at next level, right associativity) : M_scope.
Delimit Scope M_scope with M.
Open Scope M_scope.

(** ** [fetch_json] *)

(** What one attempt ([urlopen], [read().decode()], [json.loads]) gives. *)
Inductive attempt :=
  | AOk (payload : json)
  | AFail (e : exn).

(** The [except] clause of [fetch_json]. *)
Definition caught (e : exn) : bool :=
  match e with
  | HTTPError _ | URLError _ | TimeoutError _ | JSONDecodeError _ => true
  | _ => false
  end.

Definition exn_str (e : exn) : string :=
  match e with
  | FileNotFoundError m | RuntimeError m | HTTPError m | URLError m
  | TimeoutError m | JSONDecodeError m | OtherError m => m
  | _ => EmptyString
  end.

Definition nl : string := String (chr 10) EmptyString.

Definition fetch_failure_msg (retries : nat) (url : string) (last_err : option exn)
  : string :=
  ("Failed to fetch after " ++ z_to_string (Z.of_nat retries) ++ " tries:" ++ nl
   ++ url ++ nl ++ "Last error: "
   ++ match last_err with Some e => exn_str e | None => "None" end)%string.

(** [time.sleep(d)] *)
Definition sleep (d : spec_float) : M unit :=
  if SFleb fzero d then emit (EvSleep d) else lift (Err ValueError).

(** Iterations [i], [i+1], ... of [for i in range(retries)], [k] of them
    left; [att i] is the outcome of attempt [i]. *)
Fixpoint fetch_loop (url : string) (att : nat -> attempt) (retries : nat)
  (base_sleep_s : spec_float) (i k : nat) (last_err : option exn) : M json :=
  match k with
  | O => lift (Err (RuntimeError (fetch_failure_msg retries url last_err)))
  | S k' =>
      _ <~ emit (EvRequest url) ;;
      match att i with
      | AOk payload => mret payload
      | AFail e =>
          if caught e then
            m <~ lift (py_float_of_int (2 ^ Z.of_nat i)) ;;
            _ <~ sleep (SFmul prec emax base_sleep_s m) ;;
            fetch_loop url att retries base_sleep_s (S i) k' (Some e)
          else lift (Err e)
      end
  end.

Definition fetch_json (net : string -> nat -> attempt) (url : string)
  (retries : nat) (base_sleep_s : spec_float) : M json :=
  fetch_loop url (net url) retries base_sleep_s 0 retries None.

(** The defaults [retries=6], [base_sleep_s=1.0]. *)
Definition fone : spec_float := dec_to_float false 1 0.
Definition fetch_json_default (net : string -> nat -> attempt) (url : string) : M json :=
  fetch_json net url 6 fone.

(** ** URL building ([urllib.parse.urlencode]) *)

Definition hex_digit_upper (n : Z) : ascii :=
  if n <? 10 then chr (48 + n) else chr (55 + n).

Definition pct (b : Z) : string :=
  String "%" (String (hex_digit_upper (b / 16)) (String (hex_digit_upper (b mod 16)) EmptyString)).

(** [quote_plus] of one code point, through its UTF-8 bytes. *)
Definition quote_plus_char (c : ascii) : string :=
  let n := code c in
  if ((48 <=? n) && (n <=? 57)) || ((65 <=? n) && (n <=? 90))
     || ((97 <=? n) && (n <=? 122)) || (n =? 95) || (n =? 46) || (n =? 45)
     || (n =? 126)
  then String c EmptyString
  else if n =? 32 then "+"
  else if n <? 128 then pct n
  else (pct (192 + n / 64) ++ pct (128 + n mod 64))%string.

Definition quote_plus (s : string) : string :=
  fold_right (fun c acc => (quote_plus_char c ++ acc)%string) EmptyString
             (list_ascii_of_string s).

Definition urlencode (query : list (string * json)) : string :=
  join "&" (map (fun p => quote_plus (fst p) ++ "=" ++ quote_plus (py_str (snd p)))%string
                query).

(** ** The state loop of [main] (lines 215-277) *)

Record totals := {
  t_states : Z;
  t_places_rows : Z;
  t_places_written : Z;
  t_missing_geoid : Z
}.

Definition totals_json (t : totals) : json :=
  JObj [("states"%string, JInt (t_states t)); ("places_rows"%string, JInt (t_places_rows t));
        ("places_written"%string, JInt (t_places_written t));
        ("missing_geoid"%string, JInt (t_missing_geoid t))].

(** What the loop reads besides the per-row settings. *)
Record loop_env := {
  le_settings : settings;
  le_key_param : list (string * json);
  le_base_url : string;
  le_get_vars : string;
  le_api : json;
  le_filename_tmpl : json;
  le_attrs_dir : string        (* attrs_dir, as a posix path *)
}.

Definition py_len (v : json) : Z :=
  match v with
  | JArr l => Z.of_nat (List.length l)
  | JStr s => Z.of_nat (String.length s)
  | JObj kv => Z.of_nat (List.length kv)
  | _ => 0
  end.

Definition header_msg (header : json) : string :=
  ("Expected 'state' and 'place' columns in ACS response header." ++ nl
   ++ "Header: " ++ py_str header)%string.

(** One iteration of [for state in states]. *)
Definition state_step (env : loop_env) (net : string -> nat -> attempt)
  (acc : totals * list json) (state : json) : M (totals * list json) :=
  let '(tot, files_out) := acc in
  state_s <~ lift (as_str AttributeError state) ;;
  let statefp := zfill state_s 2 in
  for_v <~ lift (py_get (le_api env) "for" (JStr "place:*")) ;;
  let url := (le_base_url env ++ "?" ++
              urlencode (le_key_param env ++
                         [("get"%string, JStr (le_get_vars env)); ("for"%string, for_v);
                          ("in"%string, JStr ("state:" ++ statefp))]))%string in
  rows <~ fetch_json_default net url ;;
  header <~ lift (py_index rows 0) ;;
  data_rows <~ lift (py_slice1 rows) ;;
  idx <~ lift (build_idx header) ;;
  match dict_lookup "state" idx, dict_lookup "place" idx with
  | Some _, Some _ =>
      drs <~ lift (py_iter data_rows) ;;
      ra <~ lift (process_rows (le_settings env) idx
                    {| ra_out := []; ra_written := 0;
                       ra_missing := t_missing_geoid tot |} drs) ;;
      tmpl <~ lift (as_str AttributeError (le_filename_tmpl env)) ;;
      out_name <~ lift (format_state rt tmpl statefp) ;;
      let out_path := path_join rt (le_attrs_dir env) out_name in
      _ <~ emit (EvWrite out_path (dumps (JObj (ra_out ra)))) ;;
      let tot' := {| t_states := t_states tot + 1;
                     t_places_rows := t_places_rows tot + py_len data_rows;
                     t_places_written := t_places_written tot + ra_written ra;
                     t_missing_geoid := ra_missing ra |} in
      mret (tot', files_out ++ [JObj [("statefp"%string, JStr statefp); ("file"%string, JStr out_path);
                                       ("count"%string, JInt (ra_written ra))]])
  | _, _ => lift (Err (RuntimeError (header_msg header)))
  end.

Fixpoint state_loop (env : loop_env) (net : string -> nat -> attempt)
  (acc : totals * list json) (states : list json) : M (totals * list json) :=
  match states with
  | [] => mret acc
  | st :: sts => acc' <~ state_step env net acc st ;; state_loop env net acc' sts
  end.

(** ** [get_pmtiles_block] *)

Definition is_dict (v : json) : bool :=
  match v with JObj _ => true | _ => false end.

Definition get_pmtiles_block (cfg : json) : res json :=
  pm <- py_get cfg "pmtiles" JNull ;;
  if is_dict pm && py_truthy pm then Ok pm
  else
    out <- py_get cfg "outputs" (JObj []) ;;
    url <- py_get out "pmtiles_places_url" JNull ;;
    file_ <- py_get out "pmtiles_places_file" JNull ;;
    layer <- py_get out "pmtiles_places_layer" JNull ;;
    promote <- py_get out "pmtiles_places_promoteId" JNull ;;
    if existsb py_truthy [url; file_; layer; promote] then
      Ok (JObj [("file"%string, file_); ("url"%string, url); ("layer"%string, layer); ("promoteId"%string, promote)])
    else Ok (JObj []).

(** ** [main] *)

Fixpoint rmap {A B} (f : A -> res B) (l : list A) : res (list B) :=
  match l with
  | [] => Ok []
  | x :: l' => y <- f x ;; ys <- rmap f l' ;; Ok (y :: ys)
  end.

(** What lines 156-279 hand to the manifest. *)
Record build_state := {
  bs_vintage : json;
  bs_fields : json;
  bs_base_url : string;
  bs_attrs_dir : string;
  bs_manifest_path : string;
  bs_compute_density : bool;
  bs_density_key : json;
  bs_totals : totals;
  bs_files_out : list json;
  bs_pmtiles : json
}.

(** [schema.derived_fields] *)
Definition derived_fields (compute_density : bool) (density_key : json) : list json :=
  if compute_density then
    [JObj [("key"%string, density_key); ("type"%string, JStr "float");
           ("units"%string, JStr "people/sqmi"); ("derived"%string, JBool true);
           ("formula"%string, JStr "pop_total / (ALAND_m2 / 2589988.110336)");
           ("sources"%string, JArr [JStr "ACS pop_total"; JStr "CB Places ALAND"])]]
  else [].

(** The manifest literal (lines 281-318); [now] is
    [datetime.now(timezone.utc).isoformat()]. *)
Definition manifest_json (b : build_state) (now : string) (join_key : json) : json :=
  JObj [("dataset"%string, JStr "us_census_places_acs_profile");
        ("generated_at"%string, JStr now);
        ("vintage"%string, bs_vintage b);
        ("sources"%string, JObj [("acs_api_base_url"%string, JStr (bs_base_url b))]);
        ("pmtiles"%string, bs_pmtiles b);
        ("attrs"%string, JObj [("format"%string, JStr "geoid_keyed_object");
                              ("by_state"%string, JBool true);
                              ("attrs_dir"%string, JStr (bs_attrs_dir b));
                              ("files"%string, JArr (bs_files_out b))]);
        ("schema"%string, JObj [("join_key"%string, join_key);
                               ("fields"%string, bs_fields b);
                               ("derived_fields"%string,
                                  JArr (derived_fields (bs_compute_density b)
                                                       (bs_density_key b)))]);
        ("totals"%string, totals_json (bs_totals b))].

(** Lines 156-279: read the configuration, load the area index, fetch the
    state list and run the state loop.  [api_key] is
    [os.getenv("CENSUS_API_KEY")], [net] the network and [files] the file
    system.  (Directory creation is not modelled.) *)
Definition main_build (cfg : json) (api_key : option string)
  (net : string -> nat -> attempt) (files : string -> option (res json))
  : M build_state :=
  vintage <~ lift (py_getitem cfg "vintage") ;;
  fields <~ lift (py_getitem cfg "fields") ;;
  outputs <~ lift (py_getitem cfg "outputs") ;;
  api <~ lift (py_getitem cfg "census_api") ;;
  areas0 <~ lift (py_get cfg "areas" (JObj [])) ;;
  let areas_cfg := if py_truthy areas0 then areas0 else JObj [] in
  areaindex_geojson <~ lift (py_get areas_cfg "areaindex_geojson" JNull) ;;
  density_key <~ lift (py_get areas_cfg "density_output_key" (JStr "pop_density_sqmi")) ;;
  density_round <~ lift (py_get areas_cfg "density_round" (JInt 1)) ;;
  let compute_density := py_truthy areaindex_geojson in
  aland_by_geoid <~ lift (if compute_density
                          then load_aland_by_geoid files (py_str areaindex_geojson)
                          else Ok []) ;;
  base_url_v <~ lift (py_getitem api "base_url") ;;
  dist_dir <~ lift (py_getitem outputs "dist_dir") ;;
  _ <~ lift (as_str TypeError dist_dir) ;;
  attrs_dir_v <~ lift (py_getitem outputs "attrs_dir") ;;
  attrs_dir <~ lift (as_str TypeError attrs_dir_v) ;;
  filename_tmpl <~ lift (py_getitem outputs "attrs_filename_template") ;;
  manifest_v <~ lift (py_getitem outputs "manifest") ;;
  manifest_p <~ lift (as_str TypeError manifest_v) ;;
  let key_param := match api_key with
                   | Some k => if String.eqb k EmptyString then []
                               else [("key"%string, JStr k)]
                   | None => []
                   end in
  base_url <~ lift (as_str TypeError base_url_v) ;;
  let state_url := (base_url ++ "?" ++
                    urlencode (key_param ++ [("get"%string, JStr "NAME");
                                             ("for"%string, JStr "state:*")]))%string in
  state_rows <~ fetch_json_default net state_url ;;
  states <~ lift (sr <- py_slice1 state_rows ;; l <- py_iter sr ;;
                  rmap (fun r => py_index r 1) l) ;;
  fs <~ lift (py_iter fields) ;;
  var_list <~ lift (rmap (fun f => py_getitem f "var") fs) ;;
  vars <~ lift (rmap (as_str TypeError) var_list) ;;
  let get_vars := join "," vars in
  let env := {| le_settings := {| st_fields := fs;
                                  st_compute_density := compute_density;
                                  st_aland := aland_by_geoid;
                                  st_density_key := density_key;
                                  st_density_round := density_round |};
                le_key_param := key_param;
                le_base_url := base_url;
                le_get_vars := get_vars;
                le_api := api;
                le_filename_tmpl := filename_tmpl;
                le_attrs_dir := path_norm rt attrs_dir |} in
  acc <~ state_loop env net ({| t_states := 0; t_places_rows := 0;
                                t_places_written := 0; t_missing_geoid := 0 |}, [])
                    states ;;
  pmtiles_block <~ lift (get_pmtiles_block cfg) ;;
  mret {| bs_vintage := vintage;
          bs_fields := fields;
          bs_base_url := base_url;
          bs_attrs_dir := path_norm rt attrs_dir;
          bs_manifest_path := path_norm rt manifest_p;
          bs_compute_density := compute_density;
          bs_density_key := density_key;
          bs_totals := fst acc;
          bs_files_out := snd acc;
          bs_pmtiles := pmtiles_block |}.

(** Lines 281-320: build and write the manifest. *)
Definition main_manifest (cfg : json) (b : build_state) (now : string) : M unit :=
  join_key <~ lift (py_getitem cfg "join_key") ;;
  emit (EvWrite (bs_manifest_path b) (dumps (manifest_json b now join_key))).

Definition main (cfg : json) (api_key : option string)
  (net : string -> nat -> attempt) (files : string -> option (res json))
  (now : string) : M unit :=
  b <~ main_build cfg api_key net files ;; main_manifest cfg b now.

End Script.

(** * Specification *)

(** A concrete instance of the abstract builtins, for the examples. *)
Definition rt_example : runtime := {|
  float_repr := fun _ => "0.0"%string;
  format_state := fun tmpl st => Ok (st ++ ".json")%string;
  path_norm := fun p => p;
  path_join := fun a b => (a ++ "/" ++ b)%string
|}.

(** ** Notions the statements use *)

(** The GEOID [pad_geoid] builds for row [r], when the cells it reads are
    there and are strings. *)
Definition row_geoid (idx : list (string * Z)) (r : json) : option string :=
  match (i_st <- idx_get idx (JStr "state") ;;
         st <- py_index r i_st ;;
         i_pl <- idx_get idx (JStr "place") ;;
         pl <- py_index r i_pl ;;
         st_s <- as_str AttributeError st ;;
         pl_s <- as_str AttributeError pl ;;
         Ok (pad_geoid st_s pl_s)) with
  | Ok g => Some g
  | Err _ => None
  end.

Definition accepted (g : string) : bool := Nat.eqb (String.length g) 7.

Fixpoint geoids (idx : list (string * Z)) (rows : list json) : list string :=
  match rows with
  | [] => []
  | r :: rows' =>
      match row_geoid idx r with
      | Some g => g :: geoids idx rows'
      | None => geoids idx rows'
      end
  end.

Definition row_kept (idx : list (string * Z)) (r : json) : bool :=
  match row_geoid idx r with Some g => accepted g | None => true end.

Definition keys_after (ks : list string) (g : string) : list string :=
  if existsb (String.eqb g) ks then ks else ks ++ [g].

Definition keys7 (kv : string * json) : Prop := String.length (fst kv) = 7%nat.

(** A write of a per-state document whose keys are all seven characters
    long; requests and sleeps pass. *)
Definition persisted_ok (rt : runtime) (ev : event) : Prop :=
  match ev with
  | EvWrite _ t => exists out, t = dumps rt (JObj out) /\ Forall keys7 out
  | _ => True
  end.

Definition settings0 : settings := {|
  st_fields := [JObj [("var"%string, JStr "P"); ("key"%string, JStr "pop_total");
                      ("type"%string, JStr "int")]];
  st_compute_density := false;
  st_aland := [];
  st_density_key := JStr "pop_density_sqmi";
  st_density_round := JInt 1 |}.

Definition env0 : loop_env := {|
  le_settings := settings0;
  le_key_param := [];
  le_base_url := "https://api.example/acs";
  le_get_vars := "P";
  le_api := JObj [];
  le_filename_tmpl := JStr "{state}.json";
  le_attrs_dir := "attrs" |}.

(** Every request answers with two rows for the same place. *)
Definition net0 (url : string) (i : nat) : attempt :=
  AOk (JArr [JArr [JStr "P"; JStr "state"; JStr "place"];
             JArr [JStr "5"; JStr "06"; JStr "44000"];
             JArr [JStr "7"; JStr "06"; JStr "44000"]]).

Definition totals0 : totals :=
  {| t_states := 0; t_places_rows := 0; t_places_written := 0; t_missing_geoid := 0 |}.

Definition totals1 : totals :=
  {| t_states := 1; t_places_rows := 2; t_places_written := 2; t_missing_geoid := 0 |}.

Definition files1 : list json :=
  [JObj [("statefp"%string, JStr "06"); ("file"%string, JStr "attrs/06.json");
         ("count"%string, JInt 2)]].

Definition idx0 : list (string * Z) :=
  [("P"%string, 0); ("state"%string, 1); ("place"%string, 2)].

(** A row whose place code has six digits, then a well-formed row. *)
Definition rows0 : list json :=
  [JArr [JStr "5"; JStr "6"; JStr "123456"]; JArr [JStr "7"; JStr "6"; JStr "44000"]].

Definition acc0 : row_acc :=
  {| ra_out := [("0644000"%string, JObj [("pop_total"%string, JInt 7)])];
     ra_written := 1; ra_missing := 1 |}.

Definition is_request (ev : event) : bool :=
  match ev with EvRequest _ => true | _ => false end.

Definition pow2_float (i : nat) : spec_float := dec_to_float false (2 ^ Z.of_nat i) 0.

Definition backoff_trace (url : string) (n : nat) : list event :=
  flat_map (fun i => [EvRequest url; EvSleep (pow2_float i)]) (seq 0 n).

Definition caught_failure (a : attempt) : Prop :=
  exists e, a = AFail e /\ caught e = true.

Definition fetch_failure_text (url : string) (e : exn) : string :=
  ("Failed to fetch after 6 tries:" ++ nl ++ url ++ nl ++ "Last error: " ++ exn_str e)%string.

(** Two failed attempts (an HTTP error, then a timeout), then an answer. *)
Definition net_flaky (url : string) (i : nat) : attempt :=
  match i with
  | O => AFail (HTTPError "HTTP Error 503: Service Unavailable")
  | 1%nat => AFail (TimeoutError "timed out")
  | _ => AOk (JArr [])
  end.

(** Every attempt fails with an HTTP error. *)
Definition net_down (url : string) (i : nat) : attempt :=
  AFail (HTTPError "HTTP Error 503: Service Unavailable").

(** [aland_m2 / M2_PER_SQMI] *)
Definition land_sqmi (a : Z) : res spec_float :=
  af <- py_float_of_int a ;; py_fdiv af M2_PER_SQMI.

Definition feature_of (props : list (string * json)) : json :=
  JObj [("properties"%string, JObj props)].

Section ManifestText.
Variable rt : runtime.

Definition item_text (k : string) (v : json) : string :=
  (json_str k ++ ":" ++ dumps rt v)%string.

Definition manifest_attrs (b : build_state) : json :=
  JObj [("format"%string, JStr "geoid_keyed_object"); ("by_state"%string, JBool true);
        ("attrs_dir"%string, JStr (bs_attrs_dir b)); ("files"%string, JArr (bs_files_out b))].

Definition manifest_schema (b : build_state) (join_key : json) : json :=
  JObj [("join_key"%string, join_key); ("fields"%string, bs_fields b);
        ("derived_fields"%string, JArr (derived_fields (bs_compute_density b) (bs_density_key b)))].

(** The text of the manifest before and after the value of [generated_at]. *)
Definition manifest_pre (b : build_state) : string :=
  ("{" ++ item_text "attrs" (manifest_attrs b) ++ ","
   ++ item_text "dataset" (JStr "us_census_places_acs_profile") ++ ","
   ++ json_str "generated_at" ++ ":")%string.

Definition manifest_post (b : build_state) (join_key : json) : string :=
  ("," ++ item_text "pmtiles" (bs_pmtiles b)
   ++ "," ++ item_text "schema" (manifest_schema b join_key)
   ++ "," ++ item_text "sources" (JObj [("acs_api_base_url"%string, JStr (bs_base_url b))])
   ++ "," ++ item_text "totals" (totals_json (bs_totals b))
   ++ "," ++ item_text "vintage" (bs_vintage b) ++ "}")%string.

End ManifestText.

(** [areas_cfg.get(k, d)] with [areas_cfg = cfg.get("areas", {}) or {}]. *)
Definition areas_lookup (cfg : json) (k : string) (d : json) : json :=
  match py_get cfg "areas" (JObj []) with
  | Ok a =>
      match py_get (if py_truthy a then a else JObj []) k d with
      | Ok v => v
      | Err _ => d
      end
  | Err _ => d
  end.

Definition cfg_with_areas (areas : json) : json :=
  JObj [("vintage"%string, JInt 2024); ("fields"%string, JArr []);
        ("outputs"%string, JObj [("dist_dir"%string, JStr "dist");
                                 ("attrs_dir"%string, JStr "dist/attrs");
                                 ("attrs_filename_template"%string, JStr "{state}.json");
                                 ("manifest"%string, JStr "dist/manifest.json")]);
        ("census_api"%string, JObj [("base_url"%string, JStr "https://api.example/acs")]);
        ("areas"%string, areas); ("join_key"%string, JStr "GEOID")].

(** The state list holds its header row only. *)
Definition net_no_states (url : string) (i : nat) : attempt :=
  AOk (JArr [JArr [JStr "NAME"; JStr "state"]]).

Definition files_areaindex (p : string) : option (res json) :=
  if String.eqb p "areas.geojson" then Some (Ok (JObj [("features"%string, JArr [])]))
  else None.

(** ** Predicates and inputs used by the further properties *)

(** The number of occurrences of [c] in [s]. *)
Fixpoint count_char (c : ascii) (s : string) : nat :=
  match s with
  | EmptyString => O
  | String c' s' => if (c' =? c)%char then S (count_char c s') else count_char c s'
  end.

(** The order [sort_items] sorts by: [a] does not compare greater than [b]. *)
Definition key_le (a b : string) : Prop := String.compare a b <> Gt.

(** No character below U+0020 (the control characters [json.dumps] escapes). *)
Definition no_control (s : string) : bool :=
  forallb (fun c => 32 <=? code c) (list_ascii_of_string s).

Fixpoint all_digits (s : string) : bool :=
  match s with
  | EmptyString => true
  | String c s' => is_digit c && all_digits s'
  end.

(** Whether [parse_value] maps the trimmed text [s] to [None] before
    converting it. *)
Definition null_sentinel (s : string) : bool :=
  String.eqb s EmptyString || String.eqb (upper s) "NULL" || String.eqb (upper s) "N/A".

(** An error [fetch_json] does not catch: a connection reset while the
    response is read, after an HTTP error on the first attempt. *)
Definition net_reset (url : string) (i : nat) : attempt :=
  match i with
  | O => AFail (HTTPError "HTTP Error 503: Service Unavailable")
  | _ => AFail (OtherError "[Errno 104] Connection reset by peer")
  end.

Definition is_write (ev : event) : bool :=
  match ev with EvWrite _ _ => true | _ => false end.

(** The number of files a trace writes. *)
Definition count_writes (tr : list event) : nat := List.length (filter is_write tr).

Definition ok_count {A} (r : res A) : nat :=
  match r with Ok _ => 1 | Err _ => 0 end.

(** [o.get(k)] on a dict. *)
Definition dget (k : string) (o : list (string * json)) : json :=
  match dict_lookup k o with Some v => v | None => JNull end.

Definition pmtiles_output_keys : list string :=
  ["pmtiles_places_url"; "pmtiles_places_file"; "pmtiles_places_layer";
   "pmtiles_places_promoteId"]%string.

(** A configuration with one field, [P] as [pop_total]. *)
Definition cfg_one_field : json :=
  JObj [("vintage"%string, JInt 2024);
        ("fields"%string, JArr [JObj [("var"%string, JStr "P"); ("key"%string, JStr "pop_total");
                                      ("type"%string, JStr "int")]]);
        ("outputs"%string, JObj [("dist_dir"%string, JStr "dist");
                                 ("attrs_dir"%string, JStr "dist/attrs");
                                 ("attrs_filename_template"%string, JStr "{state}.json");
                                 ("manifest"%string, JStr "dist/manifest.json")]);
        ("census_api"%string, JObj [("base_url"%string, JStr "https://api.example/acs")]);
        ("join_key"%string, JStr "GEOID")].

(** An area index with a GEOID given twice (once with spaces around it),
    and a GEOID of three characters. *)
Definition files_dup (p : string) : option (res json) :=
  Some (Ok (JObj [("features"%string,
    JArr [feature_of [("GEOID"%string, JStr "0846465"); ("ALAND"%string, JInt 5)];
          feature_of [("GEOID"%string, JStr " 0846465 "); ("ALAND"%string, JStr "7")];
          feature_of [("GEOID"%string, JStr "123"); ("ALAND"%string, JInt 1)]])])).


(** Every request answers with a header that has no [place] column. *)
Definition net_no_place (url : string) (i : nat) : attempt :=
  AOk (JArr [JArr [JStr "P"; JStr "state"]; JArr [JStr "5"; JStr "06"]]).

(** * Proofs *)

Section ValueLemmas.

Lemma py_float_of_string_err (s : string) (e : exn) :
  py_float_of_string s = Err e -> e = ValueError.
Proof.
  unfold py_float_of_string.
  destruct (read_sign _) as [neg l].
  destruct (_ || _); [discriminate|].
  destruct (String.eqb _ _); [discriminate|].
  destruct (read_floatnumber l) as [[m ex]|]; congruence.
Qed.

Lemma strip_left_spaces (s : string) :
  forallb is_space (list_ascii_of_string s) = true -> strip_left s = EmptyString.
Proof.
  induction s as [|c s IH]; simpl; [reflexivity|].
  intros H. apply andb_prop in H as [H1 H2]. rewrite H1. auto.
Qed.

Lemma strip_spaces (s : string) :
  forallb is_space (list_ascii_of_string s) = true -> strip s = EmptyString.
Proof.
  intros H. unfold strip. rewrite (strip_left_spaces s H). reflexivity.
Qed.

(** A character that lower-cases to one of the letters of the sentinels
    upper-cases to the matching capital and is not white space. *)
Lemma ascii_lower_sentinel_char (c t : ascii) :
  In t ["n"; "u"; "l"; "/"; "a"]%char ->
  ascii_lower c = t -> ascii_upper c = ascii_upper t /\ is_space c = false.
Proof.
  intros Ht Hc; subst t.
  destruct c as [[] [] [] [] [] [] [] []];
    vm_compute in Ht; vm_compute; intuition congruence.
Qed.

Lemma lower4 (s : string) (a b c d : ascii) :
  lower s = String a (String b (String c (String d EmptyString))) ->
  exists a' b' c' d', s = String a' (String b' (String c' (String d' EmptyString)))
    /\ ascii_lower a' = a /\ ascii_lower b' = b /\ ascii_lower c' = c
    /\ ascii_lower d' = d.
Proof.
  destruct s as [|a' [|b' [|c' [|d' [|e' s]]]]]; simpl; try discriminate.
  intros H; injection H; intros; subst.
  exists a', b', c', d'. auto.
Qed.

Lemma lower3 (s : string) (a b c : ascii) :
  lower s = String a (String b (String c EmptyString)) ->
  exists a' b' c', s = String a' (String b' (String c' EmptyString))
    /\ ascii_lower a' = a /\ ascii_lower b' = b /\ ascii_lower c' = c.
Proof.
  destruct s as [|a' [|b' [|c' [|d' s]]]]; simpl; try discriminate.
  intros H; injection H; intros; subst.
  exists a', b', c'. auto.
Qed.

End ValueLemmas.

Section Coercer.
Variable rt : runtime.

Lemma parse_value_sentinel (s : string) (vtype : json) :
  upper (strip s) = "NULL"%string \/ upper (strip s) = "N/A"%string ->
  parse_value rt (JStr s) vtype = Ok JNull.
Proof.
  intros H. unfold parse_value. simpl.
  destruct H as [H|H]; rewrite H; simpl; rewrite ?orb_true_r; reflexivity.
Qed.

(** C4: for every declared type the coercer maps [None], a string of white
    space only, and [null] and [N/A] in any letter case to [None]; for the
    declared type [int] any other string goes through [float] and is
    truncated by [int], so ["123.0"] gives [123]. *)
Theorem parse_value_null_sentinels_and_int :
  (forall vtype, parse_value rt JNull vtype = Ok JNull) /\
  (forall vtype s, forallb is_space (list_ascii_of_string s) = true ->
     parse_value rt (JStr s) vtype = Ok JNull) /\
  (forall vtype s, lower s = "null"%string \/ lower s = "n/a"%string ->
     parse_value rt (JStr s) vtype = Ok JNull) /\
  (forall s f z, strip s <> EmptyString -> upper (strip s) <> "NULL"%string ->
     upper (strip s) <> "N/A"%string ->
     py_float_of_string (strip s) = Ok f -> py_int_of_float f = Ok z ->
     parse_value rt (JStr s) (JStr "int") = Ok (JInt z)) /\
  parse_value rt (JStr "123.0") (JStr "int") = Ok (JInt 123).
Proof.
  split; [reflexivity|]. split; [|split; [|split]].
  - intros vtype s H. unfold parse_value. simpl. rewrite (strip_spaces s H). reflexivity.
  - intros vtype s [H|H].
    + apply lower4 in H as (a & b & c & d & -> & Ha & Hb & Hc & Hd).
      apply parse_value_sentinel. left.
      destruct (ascii_lower_sentinel_char a "n") as [Ua Sa]; [simpl; tauto|assumption|].
      destruct (ascii_lower_sentinel_char b "u") as [Ub Sb]; [simpl; tauto|assumption|].
      destruct (ascii_lower_sentinel_char c "l") as [Uc Sc]; [simpl; tauto|assumption|].
      destruct (ascii_lower_sentinel_char d "l") as [Ud Sd]; [simpl; tauto|assumption|].
      unfold strip, rev_string. simpl. rewrite Sa. simpl. rewrite Sd. simpl.
      unfold upper. simpl. rewrite Ua, Ub, Uc, Ud. reflexivity.
    + apply lower3 in H as (a & b & c & -> & Ha & Hb & Hc).
      apply parse_value_sentinel. right.
      destruct (ascii_lower_sentinel_char a "n") as [Ua Sa]; [simpl; tauto|assumption|].
      destruct (ascii_lower_sentinel_char b "/") as [Ub Sb]; [simpl; tauto|assumption|].
      destruct (ascii_lower_sentinel_char c "a") as [Uc Sc]; [simpl; tauto|assumption|].
      unfold strip, rev_string. simpl. rewrite Sa. simpl. rewrite Sc. simpl.
      unfold upper. simpl. rewrite Ua, Ub, Uc. reflexivity.
  - intros s f z H0 H1 H2 Hf Hz. unfold parse_value. simpl.
    rewrite <- String.eqb_neq in H0, H1, H2. rewrite H0, H1, H2. simpl.
    rewrite Hf. simpl. rewrite Hz. reflexivity.
  - vm_compute. reflexivity.
Qed.

(** C5: the coercer is not total: for the declared type [int] the strings
    ["inf"] and ["1e999"] parse as an infinite float, and [int] of it raises
    [OverflowError], which the [except ValueError] clause does not catch. *)
Theorem parse_value_int_overflow_raises :
  parse_value rt (JStr "inf") (JStr "int") = Err OverflowError /\
  parse_value rt (JStr "1e999") (JStr "int") = Err OverflowError.
Proof. split; vm_compute; reflexivity. Qed.

Lemma dict_lookup_set_same {A} (k : string) (v : A) (d : list (string * A)) :
  dict_lookup k (dict_set k v d) = Some v.
Proof.
  induction d as [|[k' v'] d IH]; simpl.
  - rewrite String.eqb_refl. reflexivity.
  - destruct (String.eqb k k') eqn:E; simpl.
    + rewrite E. reflexivity.
    + rewrite E. exact IH.
Qed.

Lemma dict_lookup_set_other {A} (k k' : string) (v : A) (d : list (string * A)) :
  k' <> k -> dict_lookup k' (dict_set k v d) = dict_lookup k' d.
Proof.
  intros Hne. induction d as [|[k0 v0] d IH]; simpl.
  - apply String.eqb_neq in Hne. rewrite Hne. reflexivity.
  - destruct (String.eqb k k0) eqn:E; simpl.
    + apply String.eqb_eq in E. subst k0.
      apply String.eqb_neq in Hne. rewrite Hne. reflexivity.
    + destruct (String.eqb k' k0); [reflexivity|exact IH].
Qed.

(** C6 (as the code has it): a field entry without ["type"] is coerced as
    if it declared ["float"]; so, a null sentinel apart, its trimmed cell is
    parsed as a float, and a cell that does not parse becomes [None]. *)
Theorem untyped_field_coerced_as_float :
  (forall idx r rec kv, dict_lookup "type" kv = None ->
     set_field rt idx r rec (JObj kv)
     = set_field rt idx r rec (JObj (dict_set "type" (JStr "float") kv))) /\
  (forall s, strip s <> EmptyString -> upper (strip s) <> "NULL"%string ->
     upper (strip s) <> "N/A"%string ->
     parse_value rt (JStr s) (JStr "float")
     = match py_float_of_string (strip s) with
       | Ok f => Ok (JFloat f)
       | Err _ => Ok JNull
       end).
Proof.
  split.
  - intros idx r rec kv H. unfold set_field, py_getitem, py_get.
    rewrite dict_lookup_set_same, H.
    rewrite (dict_lookup_set_other "type" "var") by discriminate.
    rewrite (dict_lookup_set_other "type" "key") by discriminate.
    reflexivity.
  - intros s H0 H1 H2. unfold parse_value. simpl.
    rewrite <- String.eqb_neq in H0, H1, H2. rewrite H0, H1, H2. simpl.
    destruct (py_float_of_string (strip s)) as [f|e] eqn:E; [reflexivity|].
    apply py_float_of_string_err in E. subst. reflexivity.
Qed.
End Coercer.

(** C6: a field entry without ["type"] whose cell is [" 12 "] gets the
    float [12.0], not the trimmed string ["12"]. *)
Lemma untyped_field_counterexample :
  set_field rt_example [("V"%string, 0)] (JArr [JStr " 12 "])
    [] (JObj [("var"%string, JStr "V"); ("key"%string, JStr "k")])
  = Ok [("k"%string, JFloat (dec_to_float false 12 0))] /\
  set_field rt_example [("V"%string, 0)] (JArr [JStr " 12 "])
    [] (JObj [("var"%string, JStr "V"); ("key"%string, JStr "k")])
  <> Ok [("k"%string, JStr "12")].
Proof. split; vm_compute; [reflexivity|discriminate]. Qed.

Ltac rb H :=
  match type of H with
  | context [rbind ?m _] =>
      let E := fresh "E" in
      destruct m eqn:E; cbn [rbind] in H; [|discriminate H]
  end.

Section RowLoop.
Variable rt : runtime.

Lemma map_fst_dict_set {A} (k : string) (v : A) (d : list (string * A)) :
  map fst (dict_set k v d) = keys_after (map fst d) k.
Proof.
  unfold keys_after. induction d as [|[k' v'] d IH]; simpl; [reflexivity|].
  destruct (String.eqb k k') eqn:E; simpl; [reflexivity|].
  rewrite IH. destruct (existsb (String.eqb k) (map fst d)); reflexivity.
Qed.

Lemma process_row_cases (s : settings) idx acc r acc' :
  process_row rt s idx acc r = Ok acc' ->
  exists g, row_geoid idx r = Some g /\
   ((accepted g = false /\ acc' = {| ra_out := ra_out acc; ra_written := ra_written acc;
                                     ra_missing := ra_missing acc + 1 |}) \/
    (accepted g = true /\ (exists rec, ra_out acc' = dict_set g (JObj rec) (ra_out acc))
     /\ ra_written acc' = ra_written acc + 1 /\ ra_missing acc' = ra_missing acc)).
Proof.
  intros H. unfold process_row in H.
  rb H. rb H. rb H. rb H. rb H. rb H.
  exists (pad_geoid a3 a4). split.
  { unfold row_geoid. rewrite E; cbn [rbind]; rewrite E0; cbn [rbind]; rewrite E1; cbn [rbind]; rewrite E2; cbn [rbind]; rewrite E3; cbn [rbind]; rewrite E4; reflexivity. }
  unfold accepted.
  destruct (Nat.eqb (String.length (pad_geoid a3 a4)) 7) eqn:L; cbn [negb] in H.
  - right. split; [reflexivity|]. rb H. rb H. injection H as <-. simpl.
    split; [eauto|]. split; reflexivity.
  - left. split; [reflexivity|]. injection H as <-. reflexivity.
Qed.


Lemma process_row_missing_indep (s : settings) idx acc r a m :
  process_row rt s idx acc r = Ok a ->
  process_row rt s idx {| ra_out := ra_out acc; ra_written := ra_written acc;
                          ra_missing := m |} r
  = Ok {| ra_out := ra_out a; ra_written := ra_written a;
          ra_missing := m + (ra_missing a - ra_missing acc) |}.
Proof.
  intros H. unfold process_row in *.
  rb H; cbn [rbind]. rb H; cbn [rbind].
  rb H; cbn [rbind]. rb H; cbn [rbind].
  rb H; cbn [rbind]. rb H; cbn [rbind].
  destruct (negb _); cbn [negb] in *.
  - injection H as <-. simpl. f_equal. f_equal. lia.
  - rb H; cbn [rbind]. rb H; cbn [rbind].
    injection H as <-. simpl. f_equal. f_equal. lia.
Qed.

Lemma process_rows_spec (s : settings) idx rows acc acc' :
  process_rows rt s idx acc rows = Ok acc' ->
  map fst (ra_out acc')
    = fold_left keys_after (filter accepted (geoids idx rows)) (map fst (ra_out acc)) /\
  ra_written acc' = ra_written acc + Z.of_nat (List.length (filter accepted (geoids idx rows))) /\
  ra_missing acc' = ra_missing acc
    + Z.of_nat (List.length (filter (fun g => negb (accepted g)) (geoids idx rows))) /\
  (forall m, process_rows rt s idx {| ra_out := ra_out acc; ra_written := ra_written acc;
                                      ra_missing := m |} (filter (row_kept idx) rows)
             = Ok {| ra_out := ra_out acc'; ra_written := ra_written acc';
                     ra_missing := m |}).
Proof.
  revert acc. induction rows as [|r rows IH]; intros acc H.
  - simpl in H. injection H as <-. simpl.
    split; [reflexivity|]. split; [lia|]. split; [lia|]. intros m. reflexivity.
  - simpl in H. rb H.
    destruct (process_row_cases s idx acc r a E) as (g & Hg & [[Ha ->]|[Ha [[rec Hout] [Hw Hm]]]]).
    + destruct (IH _ H) as (H1 & H2 & H3 & H4). simpl in H1, H2, H3.
      cbn [geoids filter]. rewrite Hg. cbn [filter]. rewrite Ha. cbn [negb List.length].
      unfold row_kept at 1. rewrite Hg, Ha. cbn [ra_out ra_written ra_missing] in *.
      repeat split.
      * exact H1.
      * exact H2.
      * rewrite H3. lia.
      * intros m. exact (H4 m).
    + destruct (IH _ H) as (H1 & H2 & H3 & H4).
      cbn [geoids filter]. rewrite Hg. cbn [filter]. rewrite Ha. cbn [negb List.length fold_left].
      unfold row_kept at 1. rewrite Hg, Ha.
      repeat split.
      * rewrite H1, Hout, map_fst_dict_set. reflexivity.
      * rewrite H2, Hw. lia.
      * rewrite H3, Hm. reflexivity.
      * intros m. cbn [process_rows].
        rewrite (process_row_missing_indep s idx acc r a m E). cbn [rbind].
        rewrite Hm, Z.sub_diag, Z.add_0_r. exact (H4 m).
Qed.

Lemma existsb_eqb_in (g : string) (ks : list string) :
  existsb (String.eqb g) ks = true <-> In g ks.
Proof.
  rewrite existsb_exists. split.
  - intros (x & Hx & E). apply String.eqb_eq in E. subst. exact Hx.
  - intros H. exists g. split; [exact H | apply String.eqb_refl].
Qed.

Lemma fold_keys_after_in (x : string) (l ks : list string) :
  In x (fold_left keys_after l ks) <-> In x ks \/ In x l.
Proof.
  revert ks. induction l as [|a l IH]; intros ks; simpl.
  - tauto.
  - rewrite IH. unfold keys_after.
    destruct (existsb (String.eqb a) ks) eqn:E.
    + apply existsb_eqb_in in E. split; [tauto|].
      intros [H|[<-|H]]; auto.
    + rewrite in_app_iff. simpl. tauto.
Qed.

Lemma fold_keys_after_length (l ks : list string) :
  NoDup ks ->
  (List.length (fold_left keys_after l ks) <= List.length ks + List.length l)%nat /\
  (List.length (fold_left keys_after l ks) = (List.length ks + List.length l)%nat
   <-> NoDup (ks ++ l)).
Proof.
  revert ks. induction l as [|a l IH]; intros ks Hks; simpl.
  - rewrite app_nil_r. split; [lia|]. split; [intros _; exact Hks | intros _; lia].
  - destruct (existsb (String.eqb a) ks) eqn:E.
    + replace (keys_after ks a) with ks by (unfold keys_after; rewrite E; reflexivity).
      apply existsb_eqb_in in E. destruct (IH ks Hks) as [H1 _].
      split; [lia|]. split; [intros; lia|].
      intros Hd. exfalso. apply NoDup_remove_2 in Hd. apply Hd.
      apply in_app_iff. left. exact E.
    + replace (keys_after ks a) with (ks ++ [a]) by (unfold keys_after; rewrite E; reflexivity).
      assert (Hn : ~ In a ks) by (rewrite <- existsb_eqb_in, E; discriminate).
      assert (Hks' : NoDup (ks ++ [a])).
      { apply NoDup_app; auto using NoDup_cons, NoDup_nil.
        intros x Hx [<-|[]]. contradiction. }
      destruct (IH _ Hks') as [H1 H2]. rewrite length_app in H1, H2. simpl in H1, H2.
      split; [lia|]. rewrite <- app_assoc in H2. simpl in H2.
      rewrite <- H2. lia.
Qed.

(** [row_geoid] is the GEOID of [process_row]; a row whose GEOID is not
    seven characters long leaves [out] and [written] as they were. *)
Lemma process_row_rejects (s : settings) idx acc r g :
  row_geoid idx r = Some g -> String.length g <> 7%nat ->
  process_row rt s idx acc r
  = Ok {| ra_out := ra_out acc; ra_written := ra_written acc;
          ra_missing := ra_missing acc + 1 |}.
Proof.
  intros Hg Hl. unfold row_geoid in Hg. unfold process_row.
  do 6 (match type of Hg with
        | context [rbind ?m _] => destruct m; cbn [rbind] in *; [|discriminate]
        end).
  injection Hg as <-. apply Nat.eqb_neq in Hl. rewrite Hl. reflexivity.
Qed.

End RowLoop.

Section Traces.
Variable rt : runtime.

Lemma mbind_forall {A B} (P : event -> Prop) (m : M A) (f : A -> M B) :
  Forall P (fst m) -> (forall a, snd m = Ok a -> Forall P (fst (f a))) ->
  Forall P (fst (mbind m f)).
Proof.
  destruct m as [t [a|e]]; simpl; intros H1 H2; [|exact H1].
  specialize (H2 a eq_refl). destruct (f a) as [t' r]. simpl in *.
  apply Forall_app; auto.
Qed.

Lemma mbind_ok_inv {A B} (m : M A) (f : A -> M B) tr b :
  mbind m f = (tr, Ok b) ->
  exists t a t', m = (t, Ok a) /\ f a = (t', Ok b) /\ tr = t ++ t'.
Proof.
  destruct m as [t [a|e]]; simpl; [|discriminate].
  destruct (f a) as [t' r] eqn:E. intros H; injection H as <- ->.
  exists t, a, t'. auto.
Qed.

Lemma fetch_loop_events (P : event -> Prop) url att retries base i k last_err :
  (forall u, P (EvRequest u)) -> (forall d, P (EvSleep d)) ->
  Forall P (fst (fetch_loop url att retries base i k last_err)).
Proof.
  intros HR HS. revert i last_err. induction k as [|k IH]; intros i last_err;
    cbn [fetch_loop].
  - constructor.
  - apply mbind_forall; [simpl; auto|]. intros [] _.
    destruct (att i) as [p|e]; [constructor|].
    destruct (caught e); [|constructor].
    apply mbind_forall; [simpl; constructor|]. intros m _.
    apply mbind_forall.
    + unfold sleep. destruct (SFleb fzero _); simpl; auto.
    + intros [] _. apply IH.
Qed.

Lemma process_rows_keys7 (s : settings) idx rows acc acc' :
  process_rows rt s idx acc rows = Ok acc' ->
  Forall keys7 (ra_out acc) -> Forall keys7 (ra_out acc').
Proof.
  intros H H0. destruct (process_rows_spec rt s idx rows acc acc' H) as (H1 & _).
  rewrite Forall_forall in *. intros [k v] Hin. unfold keys7; simpl.
  assert (Hk : In k (map fst (ra_out acc'))) by (apply (in_map fst) in Hin; exact Hin).
  rewrite H1, fold_keys_after_in in Hk. destruct Hk as [Hk|Hk].
  - apply in_map_iff in Hk as ([k' v'] & <- & Hk'). exact (H0 _ Hk').
  - apply filter_In in Hk as [_ Hk]. apply Nat.eqb_eq. exact Hk.
Qed.

Lemma state_step_writes env net acc st :
  Forall (persisted_ok rt) (fst (state_step rt env net acc st)).
Proof.
  destruct acc as [tot fo]. unfold state_step.
  apply mbind_forall; [constructor|]. intros state_s _. cbv beta zeta.
  apply mbind_forall; [constructor|]. intros for_v _.
  apply mbind_forall; [apply fetch_loop_events; simpl; auto|]. intros rows _.
  apply mbind_forall; [constructor|]. intros header _.
  apply mbind_forall; [constructor|]. intros data_rows _.
  apply mbind_forall; [constructor|]. intros idx _.
  destruct (dict_lookup "state" idx), (dict_lookup "place" idx); try constructor.
  apply mbind_forall; [constructor|]. intros drs _.
  apply mbind_forall; [constructor|]. intros ra Hra. simpl in Hra.
  apply mbind_forall; [constructor|]. intros tmpl _.
  apply mbind_forall; [constructor|]. intros out_name _.
  apply mbind_forall; [|intros; constructor].
  constructor; [|constructor]. simpl. exists (ra_out ra). split; [reflexivity|].
  apply (process_rows_keys7 _ _ _ _ _ Hra). constructor.
Qed.

Lemma state_loop_writes env net acc sts :
  Forall (persisted_ok rt) (fst (state_loop rt env net acc sts)).
Proof.
  revert acc. induction sts as [|st sts IH]; intros acc; simpl; [constructor|].
  apply mbind_forall; [apply state_step_writes|]. intros; apply IH.
Qed.

Lemma main_build_writes cfg api_key net files :
  Forall (persisted_ok rt) (fst (main_build rt cfg api_key net files)).
Proof.
  unfold main_build.
  repeat (apply mbind_forall; [first [constructor | apply fetch_loop_events; simpl; auto
                                      | apply state_loop_writes] |];
          intros ? _; cbv beta zeta).
  constructor.
Qed.

End Traces.

Section StateStep.
Variable rt : runtime.

Ltac mi H a Ha :=
  apply mbind_ok_inv in H; destruct H as (?t & a & ?t & Ha & H & ?Ht).

Lemma state_step_ok env net tot fo st tot' fo' :
  snd (state_step rt env net (tot, fo) st) = Ok (tot', fo') ->
  exists idx drs ra p entry,
    process_rows rt (le_settings env) idx
      {| ra_out := []; ra_written := 0; ra_missing := t_missing_geoid tot |} drs = Ok ra /\
    In (EvWrite p (dumps rt (JObj (ra_out ra)))) (fst (state_step rt env net (tot, fo) st)) /\
    fo' = fo ++ [entry] /\
    py_getitem entry "count" = Ok (JInt (ra_written ra)) /\
    t_places_written tot' = t_places_written tot + ra_written ra /\
    t_missing_geoid tot' = ra_missing ra.
Proof.
  destruct (state_step rt env net (tot, fo) st) as [tr r] eqn:E. simpl. intros ->.
  unfold state_step in E.
  mi E state_s H1. cbv beta zeta in E. mi E for_v H2. mi E rows H3. mi E header H4.
  mi E data_rows H5. mi E idx H6.
  destruct (dict_lookup "state" idx), (dict_lookup "place" idx); try discriminate.
  mi E drs H7. mi E ra H8. mi E tmpl H9. mi E out_name H10. mi E u H11.
  injection H8 as _ Hra. injection E as <- <- <-.
  eexists idx, drs, ra, _, _. split; [exact Hra|].
  split.
  { subst. unfold emit in H11. injection H11 as <- _.
    do 10 (apply in_or_app; right). apply in_or_app; left. left. reflexivity. }
  split; [reflexivity|]. split; [reflexivity|]. simpl. split; reflexivity.
Qed.

End StateStep.

(** C10: for a state, the [count] of its [files_out] entry (also added to
    [totals["places_written"]]) is the number of accepted rows, duplicates
    included; it equals the number of entries of the written document iff
    the accepted GEOIDs are pairwise distinct, and exceeds it otherwise. *)
Theorem written_counts_accepted_rows (rt : runtime) env net tot fo st tot' fo' :
  snd (state_step rt env net (tot, fo) st) = Ok (tot', fo') ->
  exists idx drs ra p entry,
    process_rows rt (le_settings env) idx
      {| ra_out := []; ra_written := 0; ra_missing := t_missing_geoid tot |} drs = Ok ra /\
    In (EvWrite p (dumps rt (JObj (ra_out ra)))) (fst (state_step rt env net (tot, fo) st)) /\
    fo' = fo ++ [entry] /\
    py_getitem entry "count" = Ok (JInt (ra_written ra)) /\
    t_places_written tot' = t_places_written tot + ra_written ra /\
    ra_written ra = Z.of_nat (List.length (filter accepted (geoids idx drs))) /\
    (ra_written ra = Z.of_nat (List.length (ra_out ra))
       <-> NoDup (filter accepted (geoids idx drs))) /\
    (~ NoDup (filter accepted (geoids idx drs)) ->
       Z.of_nat (List.length (ra_out ra)) < ra_written ra).
Proof.
  intros H.
  destruct (state_step_ok rt env net tot fo st tot' fo' H)
    as (idx & drs & ra & p & entry & Hra & Hin & Hfo & Hc & Hw & _).
  exists idx, drs, ra, p, entry.
  destruct (process_rows_spec rt _ _ _ _ _ Hra) as (H1 & H2 & _). simpl in H1, H2.
  assert (Hlen : List.length (ra_out ra)
                 = List.length (fold_left keys_after (filter accepted (geoids idx drs)) []))
    by (rewrite <- H1; symmetry; apply length_map).
  destruct (fold_keys_after_length (filter accepted (geoids idx drs)) [] (NoDup_nil _))
    as [L1 L2]. simpl in L1, L2.
  repeat split; auto.
  - intros E. apply L2. lia.
  - intros Hd. apply L2 in Hd. lia.
  - intros Hd. assert (List.length (ra_out ra)
                       <> List.length (filter accepted (geoids idx drs)))
      by (intros E; apply Hd, L2; lia). lia.
Qed.

Lemma written_counts_accepted_rows_witness :
  snd (state_step rt_example env0 net0 (totals0, []) (JStr "6")) = Ok (totals1, files1) /\
  exists idx drs ra p entry,
    process_rows rt_example (le_settings env0) idx
      {| ra_out := []; ra_written := 0; ra_missing := t_missing_geoid totals0 |} drs = Ok ra /\
    In (EvWrite p (dumps rt_example (JObj (ra_out ra))))
       (fst (state_step rt_example env0 net0 (totals0, []) (JStr "6"))) /\
    files1 = [] ++ [entry] /\
    py_getitem entry "count" = Ok (JInt (ra_written ra)) /\
    t_places_written totals1 = t_places_written totals0 + ra_written ra /\
    ra_written ra = Z.of_nat (List.length (filter accepted (geoids idx drs))) /\
    (ra_written ra = Z.of_nat (List.length (ra_out ra))
       <-> NoDup (filter accepted (geoids idx drs))) /\
    (~ NoDup (filter accepted (geoids idx drs)) ->
       Z.of_nat (List.length (ra_out ra)) < ra_written ra).
Proof.
  split; [vm_compute; reflexivity|].
  apply (written_counts_accepted_rows rt_example env0 net0 totals0 [] (JStr "6")
           totals1 files1).
  vm_compute. reflexivity.
Defined.

(** C1: a data row whose GEOID (zero-padded state code followed by the
    zero-padded place code) is not seven characters long leaves the
    document and [written] unchanged and adds exactly one to
    [missing_geoid]; over a whole row loop [missing_geoid] grows by the
    number of such rows and the document keeps only seven-character keys;
    and every document [main] writes in its state loop is the serialization
    of a map whose keys all have seven characters. *)
Theorem geoid_keys_seven_rejections_counted (rt : runtime) :
  (forall s idx acc r g,
     row_geoid idx r = Some g -> String.length g <> 7%nat ->
     process_row rt s idx acc r
     = Ok {| ra_out := ra_out acc; ra_written := ra_written acc;
             ra_missing := ra_missing acc + 1 |}) /\
  (forall s idx rows acc acc',
     process_rows rt s idx acc rows = Ok acc' ->
     ra_missing acc' = ra_missing acc
       + Z.of_nat (List.length (filter (fun g => negb (accepted g)) (geoids idx rows))) /\
     (Forall keys7 (ra_out acc) -> Forall keys7 (ra_out acc'))) /\
  (forall cfg api_key net files,
     Forall (persisted_ok rt) (fst (main_build rt cfg api_key net files))).
Proof.
  split; [exact (process_row_rejects rt)|]. split.
  - intros s idx rows acc acc' H. split.
    + apply (process_rows_spec rt s idx rows acc acc' H).
    + apply (process_rows_keys7 rt s idx rows acc acc' H).
  - apply main_build_writes.
Qed.

Lemma geoid_keys_seven_rejections_counted_witness :
  (row_geoid idx0 (JArr [JStr "5"; JStr "6"; JStr "123456"]) = Some "06123456"%string /\
   process_row rt_example settings0 idx0
     {| ra_out := []; ra_written := 0; ra_missing := 0 |}
     (JArr [JStr "5"; JStr "6"; JStr "123456"])
   = Ok {| ra_out := []; ra_written := 0; ra_missing := 0 + 1 |}) /\
  (process_rows rt_example settings0 idx0
     {| ra_out := []; ra_written := 0; ra_missing := 0 |} rows0 = Ok acc0 /\
   ra_missing acc0 = 0 + Z.of_nat (List.length (filter (fun g => negb (accepted g))
                                                        (geoids idx0 rows0))) /\
   (Forall keys7 [] -> Forall keys7 (ra_out acc0))).
Proof.
  split.
  - split; [reflexivity|].
    apply (proj1 (geoid_keys_seven_rejections_counted rt_example) settings0 idx0
             {| ra_out := []; ra_written := 0; ra_missing := 0 |}
             (JArr [JStr "5"; JStr "6"; JStr "123456"]) "06123456"%string).
    + reflexivity.
    + discriminate.
  - split; [vm_compute; reflexivity|].
    apply (proj1 (proj2 (geoid_keys_seven_rejections_counted rt_example)) settings0 idx0
             rows0 {| ra_out := []; ra_written := 0; ra_missing := 0 |} acc0).
    vm_compute. reflexivity.
Defined.

Lemma parse_value_null_sentinels_and_int_witness :
  parse_value rt_example (JStr "   ") (JStr "float") = Ok JNull /\
  parse_value rt_example (JStr "N/a") (JStr "int") = Ok JNull /\
  parse_value rt_example (JStr " 7.9 ") (JStr "int") = Ok (JInt 7).
Proof.
  split; [|split].
  - apply (proj1 (proj2 (parse_value_null_sentinels_and_int rt_example)) (JStr "float")).
    reflexivity.
  - apply (proj1 (proj2 (proj2 (parse_value_null_sentinels_and_int rt_example))) (JStr "int")).
    right. reflexivity.
  - apply (proj1 (proj2 (proj2 (proj2 (parse_value_null_sentinels_and_int rt_example))))
             " 7.9 "%string (dec_to_float false 79 (-1)) 7).
    + vm_compute. intros H; discriminate H.
    + vm_compute. intros H; discriminate H.
    + vm_compute. intros H; discriminate H.
    + vm_compute. reflexivity.
    + vm_compute. reflexivity.
Defined.

Lemma untyped_field_coerced_as_float_witness :
  set_field rt_example [("V"%string, 0)] (JArr [JStr "abc"]) []
    (JObj [("var"%string, JStr "V"); ("key"%string, JStr "k")])
  = set_field rt_example [("V"%string, 0)] (JArr [JStr "abc"]) []
      (JObj (dict_set "type" (JStr "float") [("var"%string, JStr "V"); ("key"%string, JStr "k")])) /\
  parse_value rt_example (JStr " abc ") (JStr "float")
  = match py_float_of_string (strip " abc ") with
    | Ok f => Ok (JFloat f)
    | Err _ => Ok JNull
    end.
Proof.
  split.
  - apply (proj1 (untyped_field_coerced_as_float rt_example)). reflexivity.
  - apply (proj2 (untyped_field_coerced_as_float rt_example)).
    + vm_compute. intros H; discriminate H.
    + vm_compute. intros H; discriminate H.
    + vm_compute. intros H; discriminate H.
Defined.

Lemma fetch_loop_requests url att retries base i k last_err :
  (List.length (filter is_request (fst (fetch_loop url att retries base i k last_err))) <= k)%nat.
Proof.
  revert i last_err. induction k as [|k IH]; intros i last_err; cbn [fetch_loop].
  - simpl. lia.
  - destruct (att i) as [p|e]; [simpl; lia|].
    destruct (caught e); [|simpl; lia].
    destruct (py_float_of_int (2 ^ Z.of_nat i)) as [m|e']; [|simpl; lia].
    cbn [mbind lift]. unfold sleep. destruct (SFleb fzero (SFmul prec emax base m)); [|simpl; lia].
    specialize (IH (S i) (Some e)).
    destruct (fetch_loop url att retries base (S i) k (Some e)) as [t r]. simpl in *. lia.
Qed.

Lemma pow2_sleep (i : nat) : (i < 6)%nat ->
  py_float_of_int (2 ^ Z.of_nat i) = Ok (pow2_float i) /\
  SFmul prec emax fone (pow2_float i) = pow2_float i /\
  SFleb fzero (pow2_float i) = true.
Proof.
  intros H. do 6 (destruct i as [|i]; [vm_compute; auto|]). lia.
Qed.

Lemma fetch_loop_caught url att retries i k e last_err :
  (i < 6)%nat -> att i = AFail e -> caught e = true ->
  fetch_loop url att retries fone i (S k) last_err
  = let (t, r) := fetch_loop url att retries fone (S i) k (Some e) in
    (EvRequest url :: EvSleep (pow2_float i) :: t, r).
Proof.
  intros Hi Ha Hc. destruct (pow2_sleep i Hi) as (H1 & H2 & H3).
  cbn [fetch_loop]. rewrite Ha, Hc. cbn [mbind emit lift]. rewrite H1.
  unfold sleep. rewrite H2, H3. cbn [mbind emit].
  destruct (fetch_loop url att retries fone (S i) k (Some e)). reflexivity.
Qed.

Lemma fetch_loop_prefix url att retries n : forall i k last_err,
  (i + n <= 6)%nat -> (n <= k)%nat ->
  (forall j, (j < n)%nat -> caught_failure (att (i + j)%nat)) ->
  exists le',
    (n = 0%nat -> le' = last_err) /\
    (forall e, n <> 0%nat -> att (i + n - 1)%nat = AFail e -> le' = Some e) /\
    fetch_loop url att retries fone i k last_err
    = let (t, r) := fetch_loop url att retries fone (i + n) (k - n) le' in
      (flat_map (fun j => [EvRequest url; EvSleep (pow2_float j)]) (seq i n) ++ t, r).
Proof.
  induction n as [|n IH]; intros i k last_err Hi Hk Hf.
  - exists last_err. split; [reflexivity|]. split; [intros e H; lia|].
    rewrite Nat.add_0_r, Nat.sub_0_r. simpl.
    destruct (fetch_loop url att retries fone i k last_err); reflexivity.
  - destruct k as [|k]; [lia|].
    destruct (Hf 0%nat ltac:(lia)) as (e & He & Hc). rewrite Nat.add_0_r in He.
    destruct (IH (S i) k (Some e) ltac:(lia) ltac:(lia)) as (le' & H0 & H1 & H2).
    { intros j Hj. replace (S i + j)%nat with (i + S j)%nat by lia. apply Hf. lia. }
    exists le'. split; [discriminate|]. split.
    + intros e' _ He'. destruct n as [|n].
      * rewrite (H0 eq_refl). replace (i + 1 - 1)%nat with i in He' by lia. congruence.
      * apply (H1 e'); [discriminate|]. replace (S i + S n - 1)%nat with (i + S (S n) - 1)%nat by lia.
        exact He'.
    + rewrite (fetch_loop_caught url att retries i k e last_err) by (auto; lia).
      rewrite H2. replace (S i + n)%nat with (i + S n)%nat by lia. simpl (S k - S n)%nat.
      destruct (fetch_loop url att retries fone (i + S n) (k - n) le'). reflexivity.
Qed.

(** C3: with the defaults (6 tries, a base of 1 second) the fetcher sends at
    most six requests; after attempt [i] (from 0) fails with an HTTP error,
    a network error, a timeout or bad JSON it sleeps [2^i] seconds (1, 2,
    4, 8, 16, 32); when all six fail it raises a
    [RuntimeError] whose message names the URL and the last error, and
    nothing run after the fetch takes place. *)
Theorem fetch_json_retries_backoff (net : string -> nat -> attempt) (url : string) :
  (List.length (filter is_request (fst (fetch_json_default net url))) <= 6)%nat /\
  (forall n p, (n < 6)%nat ->
     (forall j, (j < n)%nat -> caught_failure (net url j)) -> net url n = AOk p ->
     fetch_json_default net url = (backoff_trace url n ++ [EvRequest url], Ok p)) /\
  (forall e5, (forall j, (j < 6)%nat -> caught_failure (net url j)) -> net url 5%nat = AFail e5 ->
     fetch_json_default net url
     = (backoff_trace url 6, Err (RuntimeError (fetch_failure_text url e5))) /\
     (forall A (k : json -> M A),
        mbind (fetch_json_default net url) k
        = (backoff_trace url 6, Err (RuntimeError (fetch_failure_text url e5))))) /\
  backoff_trace url 6
  = [EvRequest url; EvSleep (dec_to_float false 1 0); EvRequest url; EvSleep (dec_to_float false 2 0);
     EvRequest url; EvSleep (dec_to_float false 4 0); EvRequest url; EvSleep (dec_to_float false 8 0);
     EvRequest url; EvSleep (dec_to_float false 16 0); EvRequest url; EvSleep (dec_to_float false 32 0)].
Proof.
  split; [apply fetch_loop_requests|]. split; [|split].
  - intros n p Hn Hf Hp. unfold fetch_json_default, fetch_json.
    destruct (fetch_loop_prefix url (net url) 6 n 0 6 None ltac:(lia) ltac:(lia))
      as (le' & _ & _ & H); [exact Hf|].
    rewrite H. simpl (0 + n)%nat.
    destruct (6 - n)%nat as [|k] eqn:Ek; [lia|]. cbn [fetch_loop]. rewrite Hp. reflexivity.
  - intros e5 Hf He5.
    destruct (fetch_loop_prefix url (net url) 6 6 0 6 None ltac:(lia) ltac:(lia))
      as (le' & _ & H1 & H); [exact Hf|].
    rewrite (H1 e5) in H by (auto; discriminate).
    assert (E : fetch_json_default net url
                = (backoff_trace url 6, Err (RuntimeError (fetch_failure_text url e5)))).
    { unfold fetch_json_default, fetch_json. rewrite H. simpl (0 + 6)%nat. simpl (6 - 6)%nat.
      cbn [fetch_loop lift]. rewrite app_nil_r. reflexivity. }
    split; [exact E|]. intros A k. rewrite E. reflexivity.
  - reflexivity.
Qed.

Lemma fetch_json_retries_backoff_witness :
  fetch_json_default net_flaky "u" = (backoff_trace "u" 2 ++ [EvRequest "u"], Ok (JArr [])) /\
  fetch_json_default net_down "u"
  = (backoff_trace "u" 6,
     Err (RuntimeError (fetch_failure_text "u" (HTTPError "HTTP Error 503: Service Unavailable")))).
Proof.
  split.
  - apply (proj1 (proj2 (fetch_json_retries_backoff net_flaky "u")) 2%nat (JArr [])).
    + lia.
    + intros j Hj. destruct j as [|[|j]]; [| |lia]; eexists; split; reflexivity.
    + reflexivity.
  - apply (proj1 (proj1 (proj2 (proj2 (fetch_json_retries_backoff net_down "u")))
                    (HTTPError "HTTP Error 503: Service Unavailable")
                    (fun j _ => ex_intro _ _ (conj eq_refl eq_refl)) eq_refl)).
Defined.

(** C7: the density is [None] exactly when the population is [None], the
    area is absent, zero or negative, or the area in square miles is not
    positive; otherwise it is [round(float(pop) / (aland_m2 / M2_PER_SQMI),
    int(density_round))]. *)
Theorem density_null_exactly_degenerate (pop : json) (aland : option Z) (dr : json) :
  (density_value pop aland dr = Ok JNull <->
     is_none pop = true \/ aland = None \/ (exists a, aland = Some a /\ a <= 0) \/
     (exists a l, aland = Some a /\ land_sqmi a = Ok l /\ py_fgt l fzero = false)) /\
  (forall a l, is_none pop = false -> aland = Some a -> 0 < a ->
     land_sqmi a = Ok l -> py_fgt l fzero = true ->
     density_value pop aland dr
     = (p <- py_float_of_json pop ;; q <- py_fdiv p l ;; nd <- py_int_of_json dr ;;
        d <- py_round q nd ;; Ok (JFloat d))).
Proof.
  split.
  - split.
    + destruct aland as [a|]; [|auto].
      unfold density_value.
      destruct (is_none pop) eqn:Hp; [auto|]. cbn [negb andb].
      destruct (0 <? a) eqn:Ha; [|right; right; left; exists a; split; [reflexivity|lia]].
      rewrite (proj2 (Z.eqb_neq a 0)) by lia. cbn [negb andb].
      destruct (py_float_of_int a) as [af|e] eqn:Haf; cbn [rbind]; [|discriminate].
      destruct (py_fdiv af M2_PER_SQMI) as [l|e] eqn:Hl; cbn [rbind]; [|discriminate].
      destruct (py_fgt l fzero) eqn:Hg.
      * intros H.
        destruct (py_float_of_json pop) as [p|e]; cbn [rbind] in H; [|discriminate].
        destruct (py_fdiv p l) as [q|e]; cbn [rbind] in H; [|discriminate].
        destruct (py_int_of_json dr) as [nd|e]; cbn [rbind] in H; [|discriminate].
        destruct (py_round q nd); cbn [rbind] in H; discriminate.
      * intros _. right; right; right. exists a, l. split; [reflexivity|].
        split; [|exact Hg]. unfold land_sqmi. rewrite Haf. exact Hl.
    + unfold density_value. intros [H|[H|[(a & -> & Ha)|(a & l & -> & Hl & Hg)]]].
      * destruct aland; [rewrite H; reflexivity|reflexivity].
      * subst. reflexivity.
      * rewrite (proj2 (Z.ltb_ge 0 a) Ha), andb_false_r. reflexivity.
      * destruct (negb (is_none pop) && negb (a =? 0) && (0 <? a)); [|reflexivity].
        unfold land_sqmi in Hl. destruct (py_float_of_int a); cbn [rbind] in *; [|discriminate].
        rewrite Hl. cbn [rbind]. rewrite Hg. reflexivity.
  - intros a l Hp -> Ha Hl Hg. unfold density_value.
    rewrite Hp, (proj2 (Z.eqb_neq a 0)) by lia. rewrite (proj2 (Z.ltb_lt 0 a) Ha).
    cbn [negb andb]. unfold land_sqmi in Hl.
    destruct (py_float_of_int a); cbn [rbind] in *; [|discriminate].
    rewrite Hl. cbn [rbind]. rewrite Hg. reflexivity.
Qed.

Lemma density_null_exactly_degenerate_witness :
  density_value JNull (Some 1000000) (JInt 1) = Ok JNull /\
  density_value (JInt 50000) (Some 2589988) (JInt 1)
  = (p <- py_float_of_json (JInt 50000) ;; q <- py_fdiv p (S754_finite false 9007198871025587 (-53)) ;;
     nd <- py_int_of_json (JInt 1) ;; d <- py_round q nd ;; Ok (JFloat d)).
Proof.
  split.
  - apply (proj2 (proj1 (density_null_exactly_degenerate JNull (Some 1000000) (JInt 1)))).
    left. reflexivity.
  - apply (proj2 (density_null_exactly_degenerate (JInt 50000) (Some 2589988) (JInt 1))
             2589988 (S754_finite false 9007198871025587 (-53))).
    + reflexivity.
    + reflexivity.
    + lia.
    + vm_compute. reflexivity.
    + vm_compute. reflexivity.
Defined.

Section Digits.









End Digits.

Section Loader.
Variable rt : runtime.



End Loader.



Section Manifest.
Variable rt : runtime.

Lemma string_app_assoc (a b c : string) : ((a ++ b) ++ c = a ++ b ++ c)%string.
Proof. induction a as [|x a IH]; simpl; [reflexivity|]. rewrite IH. reflexivity. Qed.

Lemma dumps_obj (kv : list (string * json)) :
  dumps rt (JObj kv)
  = ("{" ++ join "," (map (fun p => json_str (fst p) ++ ":" ++ snd p)%string
                          (sort_items (map (fun p => (fst p, dumps rt (snd p))) kv))) ++ "}")%string.
Proof. reflexivity. Qed.

Lemma sort_manifest_keys {A} (a b c d e f g h : A) :
  sort_items [("dataset"%string, a); ("generated_at"%string, b); ("vintage"%string, c);
              ("sources"%string, d); ("pmtiles"%string, e); ("attrs"%string, f);
              ("schema"%string, g); ("totals"%string, h)]
  = [("attrs"%string, f); ("dataset"%string, a); ("generated_at"%string, b);
     ("pmtiles"%string, e); ("schema"%string, g); ("sources"%string, d);
     ("totals"%string, h); ("vintage"%string, c)].
Proof. reflexivity. Qed.

Lemma manifest_text (b : build_state) (now : string) (join_key : json) :
  dumps rt (manifest_json b now join_key)
  = (manifest_pre rt b ++ json_str now ++ manifest_post rt b join_key)%string.
Proof.
  unfold manifest_json. rewrite dumps_obj. cbn [map fst snd].
  rewrite sort_manifest_keys. cbn [map fst snd join].
  unfold manifest_pre, manifest_post, item_text, manifest_attrs, manifest_schema.
  repeat rewrite string_app_assoc. reflexivity.
Qed.
End Manifest.

Section SortKeys.

Lemma ascii_compare_refl (c : ascii) : Ascii.compare c c = Eq.
Proof. unfold Ascii.compare. apply N.compare_refl. Qed.

Lemma ascii_compare_lt_trans (a b c : ascii) :
  Ascii.compare a b = Lt -> Ascii.compare b c = Lt -> Ascii.compare a c = Lt.
Proof.
  unfold Ascii.compare. rewrite !N.compare_lt_iff. lia.
Qed.

Lemma string_compare_lt_trans (s1 s2 s3 : string) :
  String.compare s1 s2 = Lt -> String.compare s2 s3 = Lt -> String.compare s1 s3 = Lt.
Proof.
  revert s2 s3. induction s1 as [|c1 s1 IH]; intros [|c2 s2] [|c3 s3]; simpl;
    try discriminate; auto.
  destruct (Ascii.compare c1 c2) eqn:E12; try discriminate.
  - apply Ascii.compare_eq_iff in E12. subst c2. intros H1.
    destruct (Ascii.compare c1 c3) eqn:E13; try discriminate; auto.
    intros H2. eauto.
  - intros _. destruct (Ascii.compare c2 c3) eqn:E23; try discriminate.
    + apply Ascii.compare_eq_iff in E23. subst c3. rewrite E12. reflexivity.
    + intros _. rewrite (ascii_compare_lt_trans _ _ _ E12 E23). reflexivity.
Qed.

Lemma string_compare_total (s1 s2 : string) :
  s1 <> s2 -> String.compare s1 s2 = Lt \/ String.compare s2 s1 = Lt.
Proof.
  intros Hne. rewrite (String.compare_antisym s2 s1).
  destruct (String.compare s1 s2) eqn:E; auto.
  apply String.compare_eq_iff in E. contradiction.
Qed.

Lemma insert_item_comm {A} (a b : string * A) (l : list (string * A)) :
  fst a <> fst b -> insert_item a (insert_item b l) = insert_item b (insert_item a l).
Proof.
  intros Hne. induction l as [|q l IH]; simpl.
  - destruct (string_compare_total _ _ Hne) as [H|H].
    + rewrite H. rewrite String.compare_antisym, H. reflexivity.
    + rewrite H. rewrite String.compare_antisym, H. reflexivity.
  - destruct (String.compare (fst b) (fst q)) eqn:Bq;
    destruct (String.compare (fst a) (fst q)) eqn:Aq; simpl;
    rewrite ?Aq, ?Bq; try reflexivity;
    try (rewrite IH; reflexivity).
    all: first
      [ destruct (String.compare (fst b) (fst a)) eqn:Ba; try reflexivity;
        rewrite (string_compare_lt_trans _ _ _ Ba Aq) in Bq; discriminate
      | destruct (String.compare (fst a) (fst b)) eqn:Ab; try reflexivity;
        rewrite (string_compare_lt_trans _ _ _ Ab Bq) in Aq; discriminate
      | destruct (string_compare_total _ _ Hne) as [H|H];
        [rewrite H, String.compare_antisym, H | rewrite H, (String.compare_antisym (fst a)), H];
        reflexivity ].
Qed.

Lemma sort_items_perm {A} (l1 l2 : list (string * A)) :
  Permutation l1 l2 -> NoDup (map fst l1) -> sort_items l1 = sort_items l2.
Proof.
  unfold sort_items. induction 1 as [|x l l' P IH|y x l|l l' l'' P1 IH1 P2 IH2]; intros Hd.
  - reflexivity.
  - simpl in *. inversion Hd; subst. rewrite IH; auto.
  - simpl in *. inversion Hd as [|? ? Hn Hd']; subst. inversion Hd'; subst.
    apply insert_item_comm. intros E. apply Hn. rewrite E. left. reflexivity.
  - rewrite IH1 by exact Hd. apply IH2.
    apply (Permutation_NoDup (Permutation_map fst P1)). exact Hd.
Qed.

End SortKeys.

Lemma dumps_perm (rt : runtime) (kv1 kv2 : list (string * json)) :
  Permutation kv1 kv2 -> NoDup (map fst kv1) -> dumps rt (JObj kv1) = dumps rt (JObj kv2).
Proof.
  intros P Hd. rewrite !dumps_obj. do 4 f_equal.
  apply sort_items_perm; [apply Permutation_map, P|].
  rewrite map_map. exact Hd.
Qed.

(** C2: the text [write_json] writes for a dict does not depend on the order
    of its items (keys are sorted, separators fixed); and two runs of [main]
    on the same inputs that differ only in the clock return the same result
    and the same writes, the manifest texts differing only in the quoted
    value of [generated_at]. *)
Theorem serialization_deterministic :
  (forall rt kv1 kv2, Permutation kv1 kv2 -> NoDup (map fst kv1) ->
     dumps rt (JObj kv1) = dumps rt (JObj kv2)) /\
  (forall rt cfg api_key net files t1 t2,
     snd (main rt cfg api_key net files t1) = snd (main rt cfg api_key net files t2) /\
     (fst (main rt cfg api_key net files t1) = fst (main rt cfg api_key net files t2) \/
      exists tr p pre post,
        fst (main rt cfg api_key net files t1) = tr ++ [EvWrite p (pre ++ json_str t1 ++ post)] /\
        fst (main rt cfg api_key net files t2) = tr ++ [EvWrite p (pre ++ json_str t2 ++ post)])).
Proof.
  split; [exact dumps_perm|].
  intros rt cfg api_key net files t1 t2. unfold main.
  destruct (main_build rt cfg api_key net files) as [tr [b|e]]; [|cbn; auto].
  unfold main_manifest. cbn [mbind lift].
  destruct (py_getitem cfg "join_key") as [jk|e]; [|cbn; auto].
  cbn [mbind emit app fst snd]. split; [reflexivity|]. right.
  exists tr, (bs_manifest_path b), (manifest_pre rt b), (manifest_post rt b jk).
  rewrite !manifest_text. split; reflexivity.
Qed.

Lemma serialization_deterministic_witness :
  dumps rt_example (JObj [("b"%string, JInt 1); ("a"%string, JInt 2)])
  = dumps rt_example (JObj [("a"%string, JInt 2); ("b"%string, JInt 1)]).
Proof.
  apply (proj1 serialization_deterministic).
  - apply perm_swap.
  - repeat constructor; simpl; intuition discriminate.
Defined.

Section Gate.
Variable rt : runtime.

Lemma main_build_density_settings cfg api_key net files b :
  snd (main_build rt cfg api_key net files) = Ok b ->
  bs_compute_density b = py_truthy (areas_lookup cfg "areaindex_geojson" JNull) /\
  bs_density_key b = areas_lookup cfg "density_output_key" (JStr "pop_density_sqmi").
Proof.
  destruct (main_build rt cfg api_key net files) as [tr r] eqn:H. simpl. intros ->.
  unfold main_build in H.
  apply mbind_ok_inv in H as (? & ? & ? & _ & H & _).
  apply mbind_ok_inv in H as (? & ? & ? & _ & H & _).
  apply mbind_ok_inv in H as (? & ? & ? & _ & H & _).
  apply mbind_ok_inv in H as (? & ? & ? & _ & H & _).
  apply mbind_ok_inv in H as (? & areas0 & ? & Ha & H & _).
  cbv beta zeta in H.
  apply mbind_ok_inv in H as (? & ai & ? & Hai & H & _).
  apply mbind_ok_inv in H as (? & dk & ? & Hdk & H & _).
  unfold lift in Ha, Hai, Hdk. injection Ha as _ Ha. injection Hai as _ Hai.
  injection Hdk as _ Hdk.
  unfold areas_lookup. rewrite Ha, Hai, Hdk.
  repeat (apply mbind_ok_inv in H as (? & ? & ? & _ & H & _); cbv beta zeta in H).
  unfold mret in H. injection H as _ <-. split; reflexivity.
Qed.

(** C9 (as the code has it): the density is computed, and
    [schema.derived_fields] holds one descriptor keyed by the configured
    output key, exactly when [areas.areaindex_geojson] is truthy; otherwise
    the list is empty, in particular when there is no [areas] block; and
    with the density off a record holds only what the fields put in it. *)
Theorem derived_fields_follow_areaindex :
  (forall cfg api_key net files b,
     snd (main_build rt cfg api_key net files) = Ok b ->
     bs_compute_density b = py_truthy (areas_lookup cfg "areaindex_geojson" JNull) /\
     bs_density_key b = areas_lookup cfg "density_output_key" (JStr "pop_density_sqmi") /\
     (py_truthy (areas_lookup cfg "areaindex_geojson" JNull) = false ->
        derived_fields (bs_compute_density b) (bs_density_key b) = []) /\
     (py_truthy (areas_lookup cfg "areaindex_geojson" JNull) = true ->
        exists d, derived_fields (bs_compute_density b) (bs_density_key b) = [d] /\
                  py_getitem d "key" = Ok (bs_density_key b))) /\
  (forall kv, dict_lookup "areas" kv = None ->
     areas_lookup (JObj kv) "areaindex_geojson" JNull = JNull) /\
  (forall s idx acc r acc' g v, st_compute_density s = false ->
     process_row rt s idx acc r = Ok acc' -> dict_lookup g (ra_out acc') = Some v ->
     dict_lookup g (ra_out acc) = Some v \/
     exists rec, v = JObj rec /\ build_rec rt idx r [] (st_fields s) = Ok rec).
Proof.
  split; [|split].
  - intros cfg api_key net files b H.
    destruct (main_build_density_settings cfg api_key net files b H) as [H1 H2].
    split; [exact H1|]. split; [exact H2|]. rewrite H1. split.
    + intros ->. reflexivity.
    + intros ->. eexists. split; [reflexivity|]. reflexivity.
  - intros kv H. unfold areas_lookup. cbn [py_get]. rewrite H. reflexivity.
  - intros s idx acc r acc' g v Hs H Hg. unfold process_row in H.
    do 6 (match type of H with
          | context [rbind ?m _] => destruct m; cbn [rbind] in H; [|discriminate]
          end).
    destruct (negb _).
    + injection H as <-. left. exact Hg.
    + destruct (build_rec rt idx r [] (st_fields s)) as [rec|e] eqn:Hb;
        cbn [rbind] in H; [|discriminate].
      rewrite Hs in H. cbn [rbind] in H. injection H as <-. cbn [ra_out] in Hg.
      match type of Hg with
      | context [dict_set ?k _ _] => destruct (String.eqb g k) eqn:E
      end.
      * apply String.eqb_eq in E. subst g. rewrite dict_lookup_set_same in Hg.
        injection Hg as <-. right. eauto.
      * apply String.eqb_neq in E. rewrite dict_lookup_set_other in Hg by exact E.
        left. exact Hg.
Qed.

End Gate.

Lemma derived_fields_follow_areaindex_witness :
  exists b,
    snd (main_build rt_example
           (cfg_with_areas (JObj [("areaindex_geojson"%string, JStr "areas.geojson")]))
           None net_no_states files_areaindex) = Ok b /\
    bs_compute_density b = true /\
    exists d, derived_fields (bs_compute_density b) (bs_density_key b) = [d] /\
              py_getitem d "key" = Ok (bs_density_key b).
Proof.
  destruct (snd (main_build rt_example
                   (cfg_with_areas (JObj [("areaindex_geojson"%string, JStr "areas.geojson")]))
                   None net_no_states files_areaindex)) as [b|e] eqn:E;
    [|vm_compute in E; discriminate].
  exists b. split; [reflexivity|].
  destruct (proj1 (derived_fields_follow_areaindex rt_example) _ _ _ _ b E)
    as (H1 & _ & _ & H4).
  split; [rewrite H1; reflexivity|]. apply H4. reflexivity.
Defined.

(** C9: an [areas] block without [areaindex_geojson]: the manifest lists no
    derived field. *)
Lemma derived_fields_counterexample :
  py_get (cfg_with_areas (JObj [("density_output_key"%string, JStr "dens")])) "areas" JNull
  = Ok (JObj [("density_output_key"%string, JStr "dens")]) /\
  match snd (main_build rt_example (cfg_with_areas (JObj [("density_output_key"%string, JStr "dens")]))
               None net_no_states files_areaindex) with
  | Ok b => derived_fields (bs_compute_density b) (bs_density_key b) = []
  | Err _ => False
  end.
Proof. split; vm_compute; reflexivity. Qed.

(** * Further properties of the code *)

(** ** [pad_geoid] and [zfill] *)

Lemma string_length_app (a b : string) :
  String.length (a ++ b) = (String.length a + String.length b)%nat.
Proof. induction a as [|c a IH]; simpl; [reflexivity|]. rewrite IH. reflexivity. Qed.

Lemma zeros_length (n : nat) : String.length (zeros n) = n.
Proof. induction n as [|n IH]; simpl; [reflexivity|]. rewrite IH. reflexivity. Qed.

Lemma zfill_length (s : string) (w : nat) :
  String.length (zfill s w) = Nat.max w (String.length s).
Proof.
  unfold zfill. destruct (Nat.leb_spec w (String.length s)) as [H|H]; [lia|].
  destruct s as [|c rest]; [rewrite zeros_length; simpl in *; lia|].
  destruct ((c =? "+")%char || (c =? "-")%char); simpl in *;
    rewrite string_length_app, zeros_length; simpl; lia.
Qed.


(** X1: [pad_geoid st pl] has length [max 2 |st| + max 5 |pl|]; so the row is
    accepted (length 7) exactly when the state code has at most 2 characters
    and the place code at most 5. *)
Theorem pad_geoid_accepted (st pl : string) :
  String.length (pad_geoid st pl)
  = (Nat.max 2 (String.length st) + Nat.max 5 (String.length pl))%nat /\
  accepted (pad_geoid st pl)
  = ((String.length st <=? 2)%nat && (String.length pl <=? 5)%nat).
Proof.
  assert (H : String.length (pad_geoid st pl)
              = (Nat.max 2 (String.length st) + Nat.max 5 (String.length pl))%nat).
  { unfold pad_geoid. rewrite string_length_app, !zfill_length. reflexivity. }
  split; [exact H|]. unfold accepted. rewrite H.
  destruct (Nat.eqb_spec (Nat.max 2 (String.length st) + Nat.max 5 (String.length pl)) 7);
  destruct (Nat.leb_spec (String.length st) 2), (Nat.leb_spec (String.length pl) 5);
    simpl; try reflexivity; lia.
Qed.

Lemma all_digits_app (a b : string) :
  all_digits (a ++ b) = all_digits a && all_digits b.
Proof. induction a as [|c a IH]; simpl; [reflexivity|]. rewrite IH, andb_assoc. reflexivity. Qed.

Lemma all_digits_zeros (n : nat) : all_digits (zeros n) = true.
Proof. induction n; simpl; auto. Qed.

Lemma string_app_nil_r (s : string) : (s ++ EmptyString)%string = s.
Proof. induction s as [|c s IH]; simpl; [reflexivity|]. rewrite IH. reflexivity. Qed.

Lemma zfill_digits (s : string) (w : nat) :
  all_digits s = true ->
  zfill s w = (zeros (w - String.length s) ++ s)%string.
Proof.
  intros Hd. unfold zfill. destruct (Nat.leb_spec w (String.length s)) as [H|H].
  - replace (w - String.length s)%nat with O by lia. reflexivity.
  - destruct s as [|c rest]; [simpl; rewrite Nat.sub_0_r, string_app_nil_r; reflexivity|].
    simpl in Hd. apply andb_prop in Hd as [Hc _].
    replace ((c =? "+")%char || (c =? "-")%char) with false; [reflexivity|].
    destruct c as [[] [] [] [] [] [] [] []]; vm_compute in Hc; try discriminate; reflexivity.
Qed.


(** X2: for codes made of decimal digits, [pad_geoid] left-pads the state
    code with zeros to 2 characters and the place code to 5, and the result
    is made of digits only. *)
Theorem pad_geoid_digits (st pl : string) :
  all_digits st = true -> all_digits pl = true ->
  pad_geoid st pl
  = (zeros (2 - String.length st) ++ st ++ zeros (5 - String.length pl) ++ pl)%string /\
  all_digits (pad_geoid st pl) = true.
Proof.
  intros H1 H2. unfold pad_geoid. rewrite !zfill_digits by assumption.
  split.
  - apply string_app_assoc.
  - rewrite !all_digits_app, !all_digits_zeros, H1, H2. reflexivity.
Qed.

Lemma pad_geoid_digits_witness :
  all_digits "6" = true /\ all_digits "4400" = true /\
  pad_geoid "6" "4400" = "0604400"%string.
Proof.
  split; [reflexivity|]. split; [reflexivity|].
  rewrite (proj1 (pad_geoid_digits "6" "4400" eq_refl eq_refl)). reflexivity.
Defined.

(** ** [write_json]: key order and string escaping; [urlencode] *)

(* sorting *)
Lemma insert_item_perm {A} (p : string * A) (l : list (string * A)) :
  Permutation (insert_item p l) (p :: l).
Proof.
  induction l as [|q l IH]; simpl; [reflexivity|].
  destruct (String.compare (fst p) (fst q)); try reflexivity;
    rewrite IH; apply perm_swap.
Qed.

Lemma insert_item_hd {A} (a : string) (p : string * A) (l : list (string * A)) :
  HdRel key_le a (map fst l) -> key_le a (fst p) -> HdRel key_le a (map fst (insert_item p l)).
Proof.
  intros H1 H2. destruct l as [|q l]; simpl; [constructor; exact H2|].
  destruct (String.compare (fst p) (fst q)); simpl; constructor;
    auto; inversion H1; assumption.
Qed.

Lemma insert_item_sorted {A} (p : string * A) (l : list (string * A)) :
  Sorted key_le (map fst l) -> Sorted key_le (map fst (insert_item p l)).
Proof.
  induction l as [|q l IH]; intros Hs; simpl; [repeat constructor|].
  destruct (String.compare (fst p) (fst q)) eqn:E; simpl.
  - apply Sorted_inv in Hs as [Hs Hh]. constructor; [apply IH; exact Hs|].
    apply insert_item_hd; [exact Hh|]. unfold key_le.
    rewrite String.compare_antisym, E. discriminate.
  - constructor; [exact Hs|]. constructor. unfold key_le. rewrite E. discriminate.
  - apply Sorted_inv in Hs as [Hs Hh]. constructor; [apply IH; exact Hs|].
    apply insert_item_hd; [exact Hh|]. unfold key_le.
    rewrite String.compare_antisym, E. discriminate.
Qed.


(** X3: the key sorting of [json.dumps] with [sort_keys=True] keeps exactly
    the items of the dict and puts their keys in non-decreasing order. *)
Theorem sort_items_sorted {A} (l : list (string * A)) :
  Permutation (sort_items l) l /\ Sorted key_le (map fst (sort_items l)).
Proof.
  unfold sort_items. induction l as [|p l [IH1 IH2]]; simpl.
  - split; constructor.
  - split.
    + rewrite insert_item_perm. apply perm_skip. exact IH1.
    + apply insert_item_sorted. exact IH2.
Qed.

(* url encoding *)
Lemma count_char_app (c : ascii) (a b : string) :
  count_char c (a ++ b) = (count_char c a + count_char c b)%nat.
Proof.
  induction a as [|x a IH]; simpl; [reflexivity|].
  destruct (x =? c)%char; rewrite IH; reflexivity.
Qed.

Lemma quote_plus_char_clean (c : ascii) :
  count_char "=" (quote_plus_char c) = O /\ count_char "&" (quote_plus_char c) = O.
Proof. destruct c as [[] [] [] [] [] [] [] []]; vm_compute; split; reflexivity. Qed.

Lemma quote_plus_clean (s : string) :
  count_char "=" (quote_plus s) = O /\ count_char "&" (quote_plus s) = O.
Proof.
  unfold quote_plus. induction (list_ascii_of_string s) as [|c l [IH1 IH2]]; simpl.
  - split; reflexivity.
  - destruct (quote_plus_char_clean c) as [H1 H2].
    rewrite !count_char_app, H1, H2, IH1, IH2. split; reflexivity.
Qed.

Lemma count_char_join (c : ascii) (sep : string) (l : list string) :
  count_char c (join sep l)
  = (fold_right (fun x n => count_char c x + n) O l
     + (List.length l - 1) * count_char c sep)%nat.
Proof.
  induction l as [|x l IH]; [reflexivity|].
  destruct l as [|y l].
  - simpl. lia.
  - change (join sep (x :: y :: l)) with (x ++ sep ++ join sep (y :: l))%string.
    rewrite !count_char_app, IH. simpl (List.length _). simpl fold_right. lia.
Qed.


(** X5: a query of [n] parameters is encoded with exactly [n] [=] and
    [n - 1] [&]; [quote_plus] never leaves an [=] or [&] in a key or value. *)
Theorem urlencode_separators (rt : runtime) (query : list (string * json)) :
  count_char "=" (urlencode rt query) = List.length query /\
  count_char "&" (urlencode rt query) = (List.length query - 1)%nat /\
  (forall s, count_char "=" (quote_plus s) = O /\ count_char "&" (quote_plus s) = O).
Proof.
  unfold urlencode. rewrite !count_char_join, !length_map.
  split; [|split; [|exact quote_plus_clean]].
  - induction query as [|[k v] q IH]; [reflexivity|]. cbn [map fold_right fst snd List.length].
    rewrite !count_char_app. destruct (quote_plus_clean k) as [-> _].
    destruct (quote_plus_clean (py_str rt v)) as [-> _].
    cbn [map List.length] in IH |- *. simpl (count_char "=" "=").
    destruct q; simpl in IH |- *; lia.
  - induction query as [|[k v] q IH]; [reflexivity|]. cbn [map fold_right fst snd List.length].
    rewrite !count_char_app. destruct (quote_plus_clean k) as [_ ->].
    destruct (quote_plus_clean (py_str rt v)) as [_ ->].
    cbn [map List.length] in IH |- *. simpl (count_char "&" "=").
    destruct q; simpl in IH |- *; lia.
Qed.

(* json strings *)
Lemma no_control_app (a b : string) :
  no_control (a ++ b) = no_control a && no_control b.
Proof.
  unfold no_control. induction a as [|c a IH]; simpl; [reflexivity|].
  rewrite IH, andb_assoc. reflexivity.
Qed.

Lemma json_escape_char_clean (c : ascii) : no_control (json_escape_char c) = true.
Proof. destruct c as [[] [] [] [] [] [] [] []]; vm_compute; reflexivity. Qed.


(** X4: a string as [json.dumps] writes it contains no control character
    (below U+0020). *)
Theorem json_str_no_control (s : string) :
  no_control (json_str s) = true.
Proof.
  unfold json_str. rewrite no_control_app.
  induction (list_ascii_of_string s) as [|c l IH]; simpl; [reflexivity|].
  rewrite no_control_app, json_escape_char_clean. exact IH.
Qed.

(** ** [parse_value] and [load_aland_by_geoid] *)

Section ParseAland.
Variable rt : runtime.


(** X6: for a declared type other than [int], [parse_value] never raises:
    it returns [None], or the float of the trimmed text for [float], or the
    trimmed text itself for any other type. *)
Theorem parse_value_non_int_total (raw vtype : json) :
  is_str_lit vtype "int" = false ->
  exists v, parse_value rt raw vtype = Ok v /\
    (v = JNull \/
     (is_str_lit vtype "float" = true /\ exists f, v = JFloat f /\
        py_float_of_string (strip (py_str rt raw)) = Ok f) \/
     (is_str_lit vtype "float" = false /\ v = JStr (strip (py_str rt raw)))).
Proof.
  intros Hi. unfold parse_value.
  destruct (is_none raw); [eauto|].
  destruct (_ || _ || _); [eauto|].
  rewrite Hi. destruct (is_str_lit vtype "float") eqn:Hf.
  - destruct (py_float_of_string (strip (py_str rt raw))) as [f|e] eqn:E; cbn [rbind].
    + exists (JFloat f). split; [reflexivity|]. right. left. eauto.
    + rewrite (py_float_of_string_err _ _ E). eauto.
  - exists (JStr (strip (py_str rt raw))). split; [reflexivity|]. right. right. auto.
Qed.


(** X7: for type [int], [parse_value] raises exactly when the value is not
    [None], its trimmed text is no null sentinel and parses as a float
    infinity; the error is then [OverflowError]. *)
Theorem parse_value_int_raises_iff (raw : json) (e : exn) :
  parse_value rt raw (JStr "int") = Err e <->
  e = OverflowError /\ raw <> JNull /\ null_sentinel (strip (py_str rt raw)) = false /\
  exists neg, py_float_of_string (strip (py_str rt raw)) = Ok (S754_infinity neg).
Proof.
  unfold parse_value, null_sentinel. cbn [is_str_lit]. simpl (String.eqb "int" "int").
  destruct (is_none raw) eqn:Hn.
  { destruct raw; try discriminate Hn.
    split; [intros H; discriminate H | intros (_ & H & _); exfalso; apply H; reflexivity]. }
  assert (Hr : raw <> JNull) by (intros ->; discriminate Hn).
  set (t := strip (py_str rt raw)).
  destruct (_ || _ || _);
    [split; [intros H; discriminate H | intros (_ & _ & H & _); discriminate H]|].
  destruct (py_float_of_string t) as [f|e'] eqn:Ef; cbn [rbind].
  - destruct f as [b|b| |b m ex]; cbn [py_int_of_float rbind];
      (split; [intros H; simpl in H; first [discriminate H | injection H as <-; eauto 6]
              | intros (-> & _ & _ & neg & H); try discriminate H; reflexivity]).
  - rewrite (py_float_of_string_err _ _ Ef).
    split; [intros H; discriminate H | intros (_ & _ & _ & neg & H); discriminate H].
Qed.



(** X8: one feature of the area index raises only [AttributeError] (a
    feature, or its truthy properties, that is not a dict) or
    [OverflowError] (an [ALAND] that is a float infinity). *)
Lemma load_feature_err (out : list (string * Z)) (feat : json) (e : exn) :
  load_feature rt out feat = Err e ->
  e = AttributeError \/
  (e = OverflowError /\ exists props neg,
     py_get feat "properties" JNull = Ok props /\
     py_get (if py_truthy props then props else JObj []) "ALAND" JNull
     = Ok (JFloat (S754_infinity neg))).
Proof.
  unfold load_feature.
  destruct (py_get feat "properties" JNull) as [props0|e0] eqn:Ep; cbn [rbind].
  2:{ intros H; injection H as <-. destruct feat; cbn in Ep; try discriminate Ep;
      injection Ep as <-; left; reflexivity. }
  set (props := if py_truthy props0 then props0 else JObj []).
  destruct (py_get props "GEOID" JNull) as [g|e0] eqn:Eg; cbn [rbind].
  2:{ intros H; injection H as <-. destruct props; cbn in Eg; try discriminate Eg;
      injection Eg as <-; left; reflexivity. }
  destruct (py_get props "ALAND" JNull) as [aland|e0] eqn:Ea; cbn [rbind].
  2:{ intros H; injection H as <-. destruct props; cbn in Ea; try discriminate Ea;
      injection Ea as <-; left; reflexivity. }
  destruct (_ || _); [discriminate|].
  destruct (py_int_of_json aland) as [z|e1] eqn:Ei; [discriminate|].
  assert (He1 : e1 = ValueError \/ e1 = TypeError \/
                (e1 = OverflowError /\ exists neg, aland = JFloat (S754_infinity neg))).
  { destruct aland as [| | |f|s| |]; cbn [py_int_of_json] in Ei; try discriminate Ei;
      try (injection Ei as <-; auto; fail).
    - destruct f; cbn [py_int_of_float] in Ei; try discriminate Ei;
        injection Ei as <-; eauto.
    - unfold py_int_of_string in Ei. destruct (read_sign _) as [neg l].
      destruct (digitpart l) as [[|d ds] [|c r]]; try discriminate Ei;
        try (injection Ei as <-; auto; fail).
      destruct (Nat.ltb _ _); [injection Ei as <-; auto | discriminate Ei]. }
  destruct He1 as [->|[->|[-> [neg ->]]]].
  - destruct (rbind _ _); discriminate.
  - destruct (rbind _ _); discriminate.
  - intros H; injection H as <-. right. split; [reflexivity|].
    exists props0, neg. split; first [reflexivity | exact Ep | exact Ea].
Qed.

Lemma load_feature_ok (out out' : list (string * Z)) (feat : json) :
  load_feature rt out feat = Ok out' ->
  out' = out \/ exists g z, String.length g = 7%nat /\ out' = dict_set g z out.
Proof.
  unfold load_feature.
  destruct (py_get feat "properties" JNull) as [props0|e0]; cbn [rbind]; [|discriminate].
  destruct (py_get _ "GEOID" JNull) as [g|e0]; cbn [rbind]; [|discriminate].
  destruct (py_get _ "ALAND" JNull) as [aland|e0]; cbn [rbind]; [|discriminate].
  destruct (Nat.eqb (String.length (strip (py_str rt (if py_truthy g then g else JStr "")))) 7)
    eqn:L; cbn [negb orb].
  2:{ intros H; injection H as <-; left; reflexivity. }
  apply Nat.eqb_eq in L.
  destruct (is_none aland); [intros H; injection H as <-; left; reflexivity|].
  destruct (py_int_of_json aland) as [z|[]];
    try (intros H; injection H as <-; right; eauto; fail); try discriminate.
  all: destruct (rbind _ _) as [z|e1]; intros H; injection H as <-; [right; eauto | left; reflexivity].
Qed.

Lemma keys_after_nodup (ks : list string) (g : string) :
  NoDup ks -> NoDup (keys_after ks g).
Proof.
  unfold keys_after. destruct (existsb (String.eqb g) ks) eqn:E; [auto|].
  intros H. apply NoDup_app; auto using NoDup_cons, NoDup_nil.
  intros x Hx [<-|[]]. apply (proj2 (existsb_eqb_in g ks)) in Hx. congruence.
Qed.

Lemma keys_after_in (ks : list string) (g x : string) :
  In x (keys_after ks g) -> In x ks \/ x = g.
Proof.
  unfold keys_after. destruct (existsb _ _); [auto|].
  rewrite in_app_iff. intros [H|[<-|[]]]; auto.
Qed.

Lemma load_features_keys (out out' : list (string * Z)) (feats : list json) :
  load_features rt out feats = Ok out' ->
  NoDup (map fst out) -> Forall (fun k => String.length k = 7%nat) (map fst out) ->
  NoDup (map fst out') /\ Forall (fun k => String.length k = 7%nat) (map fst out').
Proof.
  revert out. induction feats as [|feat feats IH]; intros out H Hd Hl; cbn [load_features] in H.
  - injection H as <-. auto.
  - destruct (load_feature rt out feat) as [o|e] eqn:E; cbn [rbind] in H; [|discriminate].
    apply (IH o H).
    + destruct (load_feature_ok _ _ _ E) as [->|(g & z & _ & ->)]; [exact Hd|].
      rewrite map_fst_dict_set. apply keys_after_nodup. exact Hd.
    + destruct (load_feature_ok _ _ _ E) as [->|(g & z & Hg & ->)]; [exact Hl|].
      rewrite map_fst_dict_set. rewrite Forall_forall in *. intros x Hx.
      apply keys_after_in in Hx as [Hx| ->]; auto.
Qed.


(** X9: the area index [load_aland_by_geoid] returns has distinct keys, each
    of 7 characters. *)
Theorem aland_index_keys (files : string -> option (res json)) (p : string)
  (out : list (string * Z)) :
  load_aland_by_geoid rt files p = Ok out ->
  NoDup (map fst out) /\ Forall (fun k => String.length k = 7%nat) (map fst out).
Proof.
  unfold load_aland_by_geoid. destruct (files p) as [gj0|]; [|discriminate].
  destruct gj0 as [gj|e]; cbn [rbind]; [|discriminate].
  destruct (py_get gj "features" (JArr [])) as [feats|e]; cbn [rbind]; [|discriminate].
  destruct (py_iter feats) as [l|e]; cbn [rbind]; [|discriminate].
  intros H. apply (load_features_keys [] out l H); constructor.
Qed.

End ParseAland.

(** ** [build_idx] and [fetch_json] *)

Lemma build_idx_from_spec (names : list string) : forall i idx0,
  exists idx, build_idx_from i (map JStr names) idx0 = Ok idx /\
  forall n v, dict_lookup n idx = Some v <->
    ((exists k, v = i + Z.of_nat k /\ nth_error names k = Some n /\
                forall j, (k < j)%nat -> nth_error names j <> Some n) \/
     (dict_lookup n idx0 = Some v /\ ~ In n names)).
Proof.
  induction names as [|m ns IH]; intros i idx0.
  - exists idx0. split; [reflexivity|]. intros n v. split.
    + intros H. right. split; [exact H|]. intros [].
    + intros [(k & _ & Hk & _)|[H _]]; [destruct k; discriminate Hk | exact H].
  - destruct (IH (i + 1) (dict_set m i idx0)) as (idx & Hb & Hs).
    exists idx. split; [exact Hb|]. intros n v. rewrite Hs. clear Hs Hb.
    destruct (String.eqb_spec n m) as [->|Hne].
    + rewrite dict_lookup_set_same. split.
      * intros [(k & -> & Hk & Hl)|[Hv Hn]].
        -- left. exists (S k). split; [lia|]. split; [exact Hk|].
           intros [|j] Hj; [lia|]. apply Hl. lia.
        -- injection Hv as <-. left. exists O. split; [lia|]. split; [reflexivity|].
           intros [|j] Hj; [lia|]. simpl. intros Hj'. apply Hn.
           apply nth_error_In in Hj'. exact Hj'.
      * intros [(k & -> & Hk & Hl)|[_ Hn]]; [|exfalso; apply Hn; left; reflexivity].
        destruct k as [|k].
        -- right. split; [f_equal; lia|]. intros Hin.
           apply In_nth_error in Hin as (j & Hj). apply (Hl (S j)); [lia|exact Hj].
        -- left. exists k. split; [lia|]. split; [exact Hk|].
           intros j Hj. apply (Hl (S j)). lia.
    + rewrite dict_lookup_set_other by exact Hne. split.
      * intros [(k & -> & Hk & Hl)|[Hv Hn]].
        -- left. exists (S k). split; [lia|]. split; [exact Hk|].
           intros [|j] Hj; [lia|]. apply Hl. lia.
        -- right. split; [exact Hv|]. intros [H|H]; [congruence|contradiction].
      * intros [(k & -> & Hk & Hl)|[Hv Hn]].
        -- destruct k as [|k]; [injection Hk as ->; congruence|].
           left. exists k. split; [lia|]. split; [exact Hk|].
           intros j Hj. apply (Hl (S j)). lia.
        -- right. split; [exact Hv|]. intros H. apply Hn. right. exact H.
Qed.


(** X10: [{name: i for i, name in enumerate(header)}] maps each column name
    to its last position in the header, and holds no other name. *)
Theorem build_idx_last_position (names : list string) :
  exists idx, build_idx (JArr (map JStr names)) = Ok idx /\
  forall n i, dict_lookup n idx = Some i <->
    exists k, i = Z.of_nat k /\ nth_error names k = Some n /\
              forall j, (k < j)%nat -> nth_error names j <> Some n.
Proof.
  destruct (build_idx_from_spec names 0 []) as (idx & Hb & Hs).
  exists idx. split; [exact Hb|]. intros n i. rewrite Hs. split.
  - intros [(k & -> & H)|[H _]]; [|discriminate H].
    exists k. split; [lia | exact H].
  - intros (k & -> & H). left. exists k. split; [lia | exact H].
Qed.


(** X11: an error [fetch_json] does not catch on attempt [n] propagates at
    once: no further request or sleep follows it. *)
Theorem fetch_json_uncaught_not_retried (net : string -> nat -> attempt) (url : string)
  (n : nat) (e : exn) :
  (n < 6)%nat -> (forall j, (j < n)%nat -> caught_failure (net url j)) ->
  net url n = AFail e -> caught e = false ->
  fetch_json_default net url = (backoff_trace url n ++ [EvRequest url], Err e).
Proof.
  intros Hn Hf Hp Hc. unfold fetch_json_default, fetch_json.
  destruct (fetch_loop_prefix url (net url) 6 n 0 6 None ltac:(lia) ltac:(lia))
    as (le' & _ & _ & H); [exact Hf|].
  rewrite H. simpl (0 + n)%nat.
  destruct (6 - n)%nat as [|k] eqn:Ek; [lia|]. cbn [fetch_loop]. rewrite Hp, Hc. reflexivity.
Qed.

Lemma fetch_json_uncaught_not_retried_witness :
  fetch_json_default net_reset "u"
  = (backoff_trace "u" 1 ++ [EvRequest "u"],
     Err (OtherError "[Errno 104] Connection reset by peer")).
Proof.
  apply (fetch_json_uncaught_not_retried net_reset "u" 1 _).
  - lia.
  - intros j Hj. destruct j as [|j]; [|lia]. eexists; split; reflexivity.
  - reflexivity.
  - reflexivity.
Defined.

(** ** The trace of [main] *)

Section Traces.
Variable rt : runtime.

Lemma count_writes_app (a b : list event) :
  count_writes (a ++ b) = (count_writes a + count_writes b)%nat.
Proof. unfold count_writes. rewrite filter_app, length_app. reflexivity. Qed.

Lemma count_writes_fetch net url :
  count_writes (fst (fetch_json_default net url)) = O.
Proof.
  unfold count_writes.
  assert (H : Forall (fun ev => is_write ev = false) (fst (fetch_json_default net url))).
  { apply fetch_loop_events; reflexivity. }
  induction (fst (fetch_json_default net url)) as [|ev tr IH]; [reflexivity|].
  inversion H as [|? ? H1 H2]; subst. simpl. rewrite H1. apply IH. exact H2.
Qed.

Ltac peel :=
  repeat (match goal with
          | |- context [mbind (lift ?r) _] => destruct r eqn:?
          | |- context [match ?r with Ok _ => _ | Err _ => _ end] => destruct r eqn:?
          end; cbn [mbind lift]).

Lemma state_step_write_count env net acc st :
  count_writes (fst (state_step rt env net acc st)) = ok_count (snd (state_step rt env net acc st))
  /\ (forall tot fo tot' fo', acc = (tot, fo) -> snd (state_step rt env net acc st) = Ok (tot', fo') ->
        t_states tot' = t_states tot + 1 /\ List.length fo' = S (List.length fo)).
Proof.
  destruct acc as [tot fo]. unfold state_step. peel; try (split; [reflexivity | discriminate]).
  all: match goal with
  | |- context [fetch_json_default ?n ?u] =>
      pose proof (count_writes_fetch n u) as Hf;
      destruct (fetch_json_default n u) as [tf [rows|?e]]; cbn [fst] in Hf
  end.
  all: cbn [mbind]; peel.
  all: try (simpl; rewrite ?app_nil_r; split; [exact Hf | intros; discriminate]).
  all: try match goal with
       | |- context [dict_lookup "state" ?i] =>
           destruct (dict_lookup "state" i), (dict_lookup "place" i)
       end; simpl; rewrite ?app_nil_r.
  all: try (split; [exact Hf | intros; discriminate]).
  all: rewrite count_writes_app, Hf; split; [reflexivity|];
    intros ? ? tot' fo' E H; injection E as <- <-; injection H as <- <-; simpl;
    rewrite length_app; simpl; split; [reflexivity | lia].
Qed.

Lemma state_loop_write_count env net sts : forall tot fo,
  (forall tot' fo', snd (state_loop rt env net (tot, fo) sts) = Ok (tot', fo') ->
     count_writes (fst (state_loop rt env net (tot, fo) sts)) = List.length sts /\
     t_states tot' = t_states tot + Z.of_nat (List.length sts) /\
     List.length fo' = (List.length fo + List.length sts)%nat) /\
  (forall e, snd (state_loop rt env net (tot, fo) sts) = Err e ->
     (count_writes (fst (state_loop rt env net (tot, fo) sts)) < List.length sts)%nat).
Proof.
  induction sts as [|st sts IH]; intros tot fo; cbn [state_loop].
  - split; [|intros e H; discriminate H].
    intros tot' fo' H. injection H as <- <-. simpl. split; [reflexivity|]. split; lia.
  - destruct (state_step_write_count env net (tot, fo) st) as [H1 H2].
    destruct (state_step rt env net (tot, fo) st) as [t1 [[tot1 fo1]|e1]] eqn:E1;
      cbn [fst snd ok_count] in H1, H2.
    + destruct (H2 tot fo tot1 fo1 eq_refl eq_refl) as [S1 L1].
      cbn [mbind]. destruct (IH tot1 fo1) as [IH1 IH2].
      destruct (state_loop rt env net (tot1, fo1) sts) as [t2 r2] eqn:E2.
      cbn [fst snd] in IH1, IH2 |- *. rewrite count_writes_app, H1. split.
      * intros tot' fo' H. destruct (IH1 tot' fo' H) as (C & S & L).
        rewrite C. split; [reflexivity|]. cbn [List.length]. split; lia.
      * intros e H. specialize (IH2 e H). cbn [List.length]. lia.
    + cbn [mbind fst snd]. split; [intros; discriminate|]. intros e _. rewrite H1. simpl. lia.
Qed.

Lemma main_build_writes_count cfg api_key net files :
  forall b, snd (main_build rt cfg api_key net files) = Ok b ->
  count_writes (fst (main_build rt cfg api_key net files)) = List.length (bs_files_out b) /\
  t_states (bs_totals b) = Z.of_nat (List.length (bs_files_out b)).
Proof.
  unfold main_build. peel; try (intros ? H; discriminate H).
  all: match goal with
  | |- context [fetch_json_default ?n ?u] =>
      pose proof (count_writes_fetch n u) as Hf;
      destruct (fetch_json_default n u) as [tf [rows|?e]]; cbn [fst] in Hf
  end.
  all: cbn [mbind]; peel; try (intros ? H; discriminate H).
  all: match goal with
  | |- context [state_loop ?r ?v ?n (?t0, ?f0) ?sts] =>
      destruct (state_loop_write_count v n sts t0 f0) as [Hs _];
      destruct (state_loop r v n (t0, f0) sts) as [ts [[tot' fo']|?e]]; cbn [fst snd] in Hs
  end.
  all: cbn [mbind]; peel; try (simpl; intros ? H; discriminate H).
  all: intros b H; simpl in H; injection H as <-; simpl.
  all: destruct (Hs tot' fo' eq_refl) as (C & S & L).
  all: rewrite ?app_nil_r, count_writes_app, Hf, C, L, S; simpl; split; reflexivity.
Qed.


(** X15: a run that completes writes the manifest last, after exactly one
    file per state listed in it, and its [states] total is that number of
    files. *)
Theorem main_manifest_written_last cfg api_key net files now :
  snd (main rt cfg api_key net files now) = Ok tt ->
  exists b join_key tr,
    snd (main_build rt cfg api_key net files) = Ok b /\
    py_getitem cfg "join_key" = Ok join_key /\
    fst (main rt cfg api_key net files now)
    = tr ++ [EvWrite (bs_manifest_path b) (dumps rt (manifest_json b now join_key))] /\
    count_writes tr = List.length (bs_files_out b) /\
    t_states (bs_totals b) = Z.of_nat (List.length (bs_files_out b)).
Proof.
  unfold main. pose proof (main_build_writes_count cfg api_key net files) as Hc.
  destruct (main_build rt cfg api_key net files) as [tb [b|e]]; cbn [mbind fst snd] in *;
    [|intros H; discriminate H].
  destruct (Hc b eq_refl) as [C S].
  unfold main_manifest. destruct (py_getitem cfg "join_key") as [jk|e] eqn:Ej;
    cbn [mbind lift emit]; [|intros H; discriminate H].
  intros _. exists b, jk, tb. simpl. rewrite ?app_nil_r. auto.
Qed.

End Traces.

(** ** [get_pmtiles_block] and the areas of [main] *)

Section Pmtiles.


(** X16: [get_pmtiles_block] returns [cfg[pmtiles]] when it is a non-empty
    dict; otherwise it returns [{}] when none of the four [pmtiles_places_*]
    outputs is truthy, and else a dict of the four, [None] for those absent. *)
Theorem get_pmtiles_block_choice (kv : list (string * json)) :
  (forall pm, dict_lookup "pmtiles" kv = Some (JObj pm) -> pm <> [] ->
     get_pmtiles_block (JObj kv) = Ok (JObj pm)) /\
  (forall o, (forall pm, dict_lookup "pmtiles" kv = Some pm -> is_dict pm && py_truthy pm = false) ->
     dict_lookup "outputs" kv = Some (JObj o) \/ (dict_lookup "outputs" kv = None /\ o = []) ->
     (forallb (fun k => negb (py_truthy (dget k o))) pmtiles_output_keys = true ->
        get_pmtiles_block (JObj kv) = Ok (JObj [])) /\
     (forallb (fun k => negb (py_truthy (dget k o))) pmtiles_output_keys = false ->
        get_pmtiles_block (JObj kv)
        = Ok (JObj [("file"%string, dget "pmtiles_places_file" o);
                    ("url"%string, dget "pmtiles_places_url" o);
                    ("layer"%string, dget "pmtiles_places_layer" o);
                    ("promoteId"%string, dget "pmtiles_places_promoteId" o)]))).
Proof.
  split.
  - intros pm H Hne. unfold get_pmtiles_block. cbn [py_get]. rewrite H. cbn [rbind].
    destruct pm as [|p pm]; [contradiction|]. reflexivity.
  - intros o Hpm Ho.
    assert (E : get_pmtiles_block (JObj kv)
                = if existsb py_truthy [dget "pmtiles_places_url" o; dget "pmtiles_places_file" o;
                                        dget "pmtiles_places_layer" o;
                                        dget "pmtiles_places_promoteId" o]
                  then Ok (JObj [("file"%string, dget "pmtiles_places_file" o);
                                 ("url"%string, dget "pmtiles_places_url" o);
                                 ("layer"%string, dget "pmtiles_places_layer" o);
                                 ("promoteId"%string, dget "pmtiles_places_promoteId" o)])
                  else Ok (JObj [])).
    { unfold get_pmtiles_block. cbn [py_get]. cbn [rbind].
      destruct (dict_lookup "pmtiles" kv) as [pm|] eqn:Ep.
      - rewrite (Hpm pm eq_refl). cbn [py_get rbind].
        destruct Ho as [Ho|[Ho ->]]; rewrite Ho; reflexivity.
      - cbn [is_dict andb py_truthy]. cbn [py_get rbind].
        destruct Ho as [Ho|[Ho ->]]; rewrite Ho; reflexivity. }
    rewrite E. unfold pmtiles_output_keys. cbn [forallb existsb].
    destruct (py_truthy (dget "pmtiles_places_url" o)), (py_truthy (dget "pmtiles_places_file" o)),
      (py_truthy (dget "pmtiles_places_layer" o)), (py_truthy (dget "pmtiles_places_promoteId" o));
      cbn; split; intros H; first [reflexivity | discriminate H].
Qed.

Lemma get_pmtiles_block_choice_witness :
  get_pmtiles_block (JObj [("pmtiles"%string, JObj [("url"%string, JStr "pmtiles://a")]);
                           ("outputs"%string, JStr "not a dict")])
  = Ok (JObj [("url"%string, JStr "pmtiles://a")]) /\
  get_pmtiles_block (JObj [("outputs"%string, JObj [("pmtiles_places_layer"%string, JStr "places")])])
  = Ok (JObj [("file"%string, JNull); ("url"%string, JNull); ("layer"%string, JStr "places");
              ("promoteId"%string, JNull)]).
Proof.
  split.
  - apply (proj1 (get_pmtiles_block_choice _)); [reflexivity | discriminate].
  - refine (proj2 (proj2 (get_pmtiles_block_choice
                             [("outputs"%string, JObj [("pmtiles_places_layer"%string, JStr "places")])])
                   [("pmtiles_places_layer"%string, JStr "places")] _ _) _).
    + intros pm H. discriminate H.
    + left. reflexivity.
    + reflexivity.
Defined.

Variable rt : runtime.

Lemma main_build_ignores_files cfg api_key net files1 files2 :
  py_truthy (areas_lookup cfg "areaindex_geojson" JNull) = false ->
  main_build rt cfg api_key net files1 = main_build rt cfg api_key net files2.
Proof.
  intros H. unfold main_build.
  destruct (py_getitem cfg "vintage"); cbn [mbind lift]; [|reflexivity].
  destruct (py_getitem cfg "fields"); cbn [mbind lift]; [|reflexivity].
  destruct (py_getitem cfg "outputs"); cbn [mbind lift]; [|reflexivity].
  destruct (py_getitem cfg "census_api"); cbn [mbind lift]; [|reflexivity].
  destruct (py_get cfg "areas" (JObj [])) as [ar|e] eqn:Ea; cbn [mbind lift]; [|reflexivity].
  destruct (py_get (if py_truthy ar then ar else JObj []) "areaindex_geojson" JNull)
    as [ai|e] eqn:Eai; cbn [mbind lift]; [|reflexivity].
  unfold areas_lookup in H. rewrite Ea, Eai in H. rewrite H. reflexivity.
Qed.


(** X17: when [areas.areaindex_geojson] is not truthy, the run does not
    depend on the file system: the area index is never read. *)
Theorem main_no_density_ignores_areaindex cfg api_key net files1 files2 now :
  py_truthy (areas_lookup cfg "areaindex_geojson" JNull) = false ->
  main rt cfg api_key net files1 now = main rt cfg api_key net files2 now.
Proof.
  intros H. unfold main. rewrite (main_build_ignores_files cfg api_key net files1 files2 H).
  reflexivity.
Qed.


(** X18: when [areas.areaindex_geojson] names a missing file, the run raises
    [FileNotFoundError] naming it before any request or write. *)
Theorem main_missing_areaindex_no_request (kv areas : list (string * json)) (p : json)
  api_key net files now :
  forallb (fun k => match dict_lookup k kv with Some _ => true | None => false end)
          ["vintage"; "fields"; "outputs"; "census_api"]%string = true ->
  dict_lookup "areas" kv = Some (JObj areas) ->
  dict_lookup "areaindex_geojson" areas = Some p -> py_truthy p = true ->
  files (py_str rt p) = None ->
  main rt (JObj kv) api_key net files now
  = ([], Err (FileNotFoundError ("areaindex_geojson not found: " ++ py_str rt p))).
Proof.
  intros Hk Ha Hp Ht Hf. unfold main, main_build.
  cbn [forallb] in Hk.
  destruct (dict_lookup "vintage" kv) eqn:E1; [|discriminate].
  destruct (dict_lookup "fields" kv) eqn:E2; [|discriminate].
  destruct (dict_lookup "outputs" kv) eqn:E3; [|discriminate].
  destruct (dict_lookup "census_api" kv) eqn:E4; [|discriminate].
  assert (Tr : py_truthy (JObj areas) = true).
  { destruct areas; [discriminate Hp | reflexivity]. }
  cbn [py_getitem py_get]. rewrite E1, E2, E3, E4, Ha. cbn [mbind lift].
  rewrite Tr. cbn [py_get]. rewrite Hp. cbn [mbind lift]. rewrite Ht.
  unfold load_aland_by_geoid. rewrite Hf. reflexivity.
Qed.

End Pmtiles.

Lemma main_missing_areaindex_no_request_witness :
  main rt_example (cfg_with_areas (JObj [("areaindex_geojson"%string, JStr "gone.geojson")]))
       None net0 files_areaindex "now"
  = ([], Err (FileNotFoundError "areaindex_geojson not found: gone.geojson")).
Proof.
  apply (main_missing_areaindex_no_request rt_example _ [("areaindex_geojson"%string, JStr "gone.geojson")]
           (JStr "gone.geojson")); reflexivity.
Defined.

Lemma main_no_density_ignores_areaindex_witness :
  main rt_example cfg_one_field None net0 files_areaindex "now"
  = main rt_example cfg_one_field None net0 (fun _ => None) "now".
Proof.
  apply main_no_density_ignores_areaindex. reflexivity.
Defined.

(** ** What [main] does with a response header *)

Section Header.
Variable rt : runtime.

(** X13: when the response for a state has a header without a [state] or a
    [place] column, the state raises [RuntimeError] with the header in its
    message, after one request and before writing any file. *)
Theorem state_step_header_check (env : loop_env) (net : string -> nat -> attempt)
  (tot : totals) (fo : list json) (s : string) (header : json) (data : list json)
  (idx : list (string * Z)) :
  is_dict (le_api env) = true ->
  (forall u, net u O = AOk (JArr (header :: data))) ->
  build_idx header = Ok idx ->
  dict_lookup "state" idx = None \/ dict_lookup "place" idx = None ->
  exists url, state_step rt env net (tot, fo) (JStr s)
              = ([EvRequest url], Err (RuntimeError (header_msg rt header))).
Proof.
  intros Hapi Hnet Hidx Hmiss.
  destruct (le_api env) as [| | | | | |api] eqn:Ea; try discriminate Hapi.
  unfold state_step. cbn [as_str lift mbind]. rewrite Ea. cbn [py_get lift mbind].
  unfold fetch_json_default, fetch_json. cbn [fetch_loop emit mbind]. rewrite Hnet.
  assert (Hi : py_index (JArr (header :: data)) 0 = Ok header) by reflexivity.
  cbn [mret mbind lift app]. rewrite Hi. cbn [mbind lift py_slice1].
  rewrite Hidx. cbn [mbind lift].
  destruct Hmiss as [H|H]; rewrite H;
    [|destruct (dict_lookup "state" idx)]; eexists; reflexivity.
Qed.

End Header.

Section TraceExtras.
Variable rt : runtime.

(** X12: one state writes one file when it succeeds and none when it fails;
    on success the count of states goes up by one and one entry is added to
    the list of files. *)
Theorem state_step_writes_once (env : loop_env) (net : string -> nat -> attempt)
  (tot : totals) (fo : list json) (st : json) :
  count_writes (fst (state_step rt env net (tot, fo) st))
  = ok_count (snd (state_step rt env net (tot, fo) st)) /\
  (forall tot' fo', snd (state_step rt env net (tot, fo) st) = Ok (tot', fo') ->
     t_states tot' = t_states tot + 1 /\ List.length fo' = S (List.length fo)).
Proof.
  destruct (state_step_write_count rt env net (tot, fo) st) as [H1 H2].
  split; [exact H1|]. intros tot' fo'. apply H2. reflexivity.
Qed.

(** X14: the loop over the states writes one file per state when it
    completes, and adds that many states and file entries to its
    accumulator; when it fails it has written fewer files than there are
    states. *)
Theorem state_loop_one_write_per_state (env : loop_env) (net : string -> nat -> attempt)
  (sts : list json) : forall tot fo,
  (forall tot' fo', snd (state_loop rt env net (tot, fo) sts) = Ok (tot', fo') ->
     count_writes (fst (state_loop rt env net (tot, fo) sts)) = List.length sts /\
     t_states tot' = t_states tot + Z.of_nat (List.length sts) /\
     List.length fo' = (List.length fo + List.length sts)%nat) /\
  (forall e, snd (state_loop rt env net (tot, fo) sts) = Err e ->
     (count_writes (fst (state_loop rt env net (tot, fo) sts)) < List.length sts)%nat).
Proof. exact (state_loop_write_count rt env net sts). Qed.

End TraceExtras.

(** ** Witnesses *)

Lemma state_step_header_check_witness :
  exists url, state_step rt_example env0 net_no_place (totals0, []) (JStr "06")
              = ([EvRequest url],
                 Err (RuntimeError (header_msg rt_example (JArr [JStr "P"; JStr "state"])))).
Proof.
  apply (state_step_header_check rt_example env0 net_no_place totals0 [] "06"
           (JArr [JStr "P"; JStr "state"]) [JArr [JStr "5"; JStr "06"]]
           [("P"%string, 0); ("state"%string, 1)]).
  - reflexivity.
  - intros u. reflexivity.
  - reflexivity.
  - right. reflexivity.
Defined.

Lemma state_step_writes_once_witness :
  snd (state_step rt_example env0 net0 (totals0, []) (JStr "06")) = Ok (totals1, files1) /\
  count_writes (fst (state_step rt_example env0 net0 (totals0, []) (JStr "06"))) = 1%nat.
Proof.
  split; [vm_compute; reflexivity|].
  rewrite (proj1 (state_step_writes_once rt_example env0 net0 totals0 [] (JStr "06"))).
  vm_compute. reflexivity.
Defined.

Lemma state_loop_one_write_per_state_witness :
  count_writes (fst (state_loop rt_example env0 net0 (totals0, []) [JStr "06"; JStr "36"]))
  = 2%nat.
Proof.
  destruct (snd (state_loop rt_example env0 net0 (totals0, []) [JStr "06"; JStr "36"]))
    as [[t f]|e] eqn:E.
  - exact (proj1 (proj1 (state_loop_one_write_per_state rt_example env0 net0
                           [JStr "06"; JStr "36"] totals0 []) t f E)).
  - vm_compute in E. discriminate E.
Defined.

Lemma parse_value_non_int_total_witness :
  is_str_lit (JStr "float") "int" = false /\
  exists v, parse_value rt_example (JStr " 12.5 ") (JStr "float") = Ok v /\
    (v = JNull \/
     (is_str_lit (JStr "float") "float" = true /\ exists f, v = JFloat f /\
        py_float_of_string (strip (py_str rt_example (JStr " 12.5 "))) = Ok f) \/
     (is_str_lit (JStr "float") "float" = false /\
      v = JStr (strip (py_str rt_example (JStr " 12.5 "))))).
Proof.
  split; [reflexivity|]. apply parse_value_non_int_total. reflexivity.
Defined.

Lemma parse_value_int_raises_iff_witness :
  parse_value rt_example (JStr " -Infinity ") (JStr "int") = Err OverflowError.
Proof.
  apply (proj2 (parse_value_int_raises_iff rt_example (JStr " -Infinity ") OverflowError)).
  split; [reflexivity|]. split; [discriminate|]. split; [vm_compute; reflexivity|].
  exists true. vm_compute. reflexivity.
Defined.

Lemma load_feature_err_witness :
  load_feature rt_example []
    (feature_of [("GEOID"%string, JStr "0846465"); ("ALAND"%string, JFloat (S754_infinity false))])
  = Err OverflowError /\
  exists props neg,
    py_get (feature_of [("GEOID"%string, JStr "0846465");
                        ("ALAND"%string, JFloat (S754_infinity false))]) "properties" JNull
    = Ok props /\
    py_get (if py_truthy props then props else JObj []) "ALAND" JNull
    = Ok (JFloat (S754_infinity neg)).
Proof.
  assert (H : load_feature rt_example []
                (feature_of [("GEOID"%string, JStr "0846465");
                             ("ALAND"%string, JFloat (S754_infinity false))])
              = Err OverflowError) by (vm_compute; reflexivity).
  split; [exact H|].
  destruct (load_feature_err rt_example _ _ _ H) as [E|[_ P]]; [discriminate E | exact P].
Defined.

Lemma aland_index_keys_witness :
  load_aland_by_geoid rt_example files_dup "areas.geojson" = Ok [("0846465"%string, 7)] /\
  NoDup (map fst [("0846465"%string, 7)]) /\
  Forall (fun k => String.length k = 7%nat) (map fst [("0846465"%string, 7)]).
Proof.
  assert (H : load_aland_by_geoid rt_example files_dup "areas.geojson"
              = Ok [("0846465"%string, 7)]) by (vm_compute; reflexivity).
  split; [exact H|]. exact (aland_index_keys rt_example files_dup _ _ H).
Defined.

Lemma build_idx_last_position_witness :
  exists idx, build_idx (JArr (map JStr ["P"; "state"; "place"; "state"]%string)) = Ok idx /\
              dict_lookup "state" idx = Some 3.
Proof.
  destruct (build_idx_last_position ["P"; "state"; "place"; "state"]%string) as (idx & H & S).
  exists idx. split; [exact H|]. apply S. exists 3%nat.
  split; [reflexivity|]. split; [reflexivity|].
  intros j Hj. destruct j as [|[|[|[|j]]]]; try lia. destruct j; discriminate.
Defined.

Lemma main_manifest_written_last_witness :
  snd (main rt_example cfg_one_field None net0 files_areaindex "now") = Ok tt /\
  exists b join_key tr,
    snd (main_build rt_example cfg_one_field None net0 files_areaindex) = Ok b /\
    py_getitem cfg_one_field "join_key" = Ok join_key /\
    fst (main rt_example cfg_one_field None net0 files_areaindex "now")
    = tr ++ [EvWrite (bs_manifest_path b) (dumps rt_example (manifest_json b "now" join_key))] /\
    count_writes tr = List.length (bs_files_out b) /\
    t_states (bs_totals b) = Z.of_nat (List.length (bs_files_out b)).
Proof.
  assert (H : snd (main rt_example cfg_one_field None net0 files_areaindex "now") = Ok tt)
    by (vm_compute; reflexivity).
  split; [exact H|]. exact (main_manifest_written_last rt_example _ _ _ _ _ H).
Defined.
